(** * Inventory MVP: the Inventory aggregate, its low-stock policy and the
      inventory repository, embedded in Rocq.

    Sources: src/domain/inventory.py, src/domain/events.py,
    src/domain/exceptions.py, src/application/policies/stock_monitor.py,
    src/infrastructure/database/repository.py.

    Python ints are unbounded: quantities are [Z].  Python strings are
    modelled as lists of ASCII characters.  Methods that mutate [self] are
    written in explicit state-passing style: they take the aggregate and
    return the aggregate as it is after the call together with the outcome
    (the returned events, or the exception raised).  Event timestamps come
    from an ambient clock ([datetime.utcnow]) and take part in no decision
    of the code; they are left out of the event records. *)

From Stdlib Require Import ZArith List Ascii String Bool Lia.
Import ListNotations.
Open Scope Z_scope.

(** ** Python strings *)

Definition pystr := list ascii.

(** [str.isspace] on one ASCII character: \t \n \v \f \r (9-13), the
    separators \x1c-\x1f (28-31) and the space (32). *)
Definition py_isspace (c : ascii) : bool :=
  let n := nat_of_ascii c in
  ((9 <=? n) && (n <=? 13) || (28 <=? n) && (n <=? 32))%nat.

Fixpoint lstrip (s : pystr) : pystr :=
  match s with
  | [] => []
  | c :: t => if py_isspace c then lstrip t else s
  end.

Definition rstrip (s : pystr) : pystr := rev (lstrip (rev s)).

(** [str.strip()] with no argument. *)
Definition strip (s : pystr) : pystr := rstrip (lstrip s).

(** Truthiness of a string: [not s] holds exactly for the empty string. *)
Definition py_not_str (s : pystr) : bool :=
  match s with [] => true | _ => false end.

Definition pystr_eqb (a b : pystr) : bool :=
  if list_eq_dec ascii_dec a b then true else false.

(** ** Exceptions (src/domain/exceptions.py) *)

Inductive InventoryDomainError :=
| InvalidQuantityError
| InsufficientStockError
| InventoryNotFoundError
| InventoryAlreadyExistsError.

(** Outcome of a Python call: a returned value or a raised domain error. *)
Inductive result (A : Type) :=
| Ok : A -> result A
| Err : InventoryDomainError -> result A.
Arguments Ok {A} _.
Arguments Err {A} _.

(** ** Domain events (src/domain/events.py) *)

Inductive event :=
| InventoryReserved (product_id : pystr) (quantity : Z)
| InventoryReleased (product_id : pystr) (quantity : Z)
| InventoryAdjusted (product_id : pystr) (old_quantity new_quantity : Z)
| LowStockDetected (product_id : pystr) (available_quantity minimum_stock_level : Z)
| InventoryCreated (product_id : pystr) (initial_quantity minimum_stock_level : Z).

(** ** The aggregate (src/domain/inventory.py) *)

Record Inventory := mkInventory {
  product_id : pystr;
  total_quantity : Z;
  reserved_quantity : Z;
  minimum_stock_level : Z
}.

Definition available_quantity (self : Inventory) : Z :=
  total_quantity self - reserved_quantity self.

(** [Inventory._validate_invariants], checks in source order. *)
Definition _validate_invariants (self : Inventory) : result unit :=
  if total_quantity self <? 0 then Err InvalidQuantityError
  else if reserved_quantity self <? 0 then Err InvalidQuantityError
  else if minimum_stock_level self <? 0 then Err InvalidQuantityError
  else if reserved_quantity self >? total_quantity self then Err InvalidQuantityError
  else Ok tt.

(** The dataclass constructor: field assignment, then [__post_init__]. *)
Definition new_Inventory (pid : pystr) (t r m : Z) : result Inventory :=
  let self := mkInventory pid t r m in
  match _validate_invariants self with
  | Ok _ => Ok self
  | Err e => Err e
  end.

(** The field [minimum_stock_level], under a second name for the bodies
    whose parameter of the same name shadows the projection. *)
Definition minimum_stock_level_of (s : Inventory) : Z := minimum_stock_level s.

(** The invariants I1-I4 as a proposition. *)
Definition valid (s : Inventory) : Prop :=
  0 <= total_quantity s /\ 0 <= reserved_quantity s /\
  0 <= minimum_stock_level s /\ reserved_quantity s <= total_quantity s.

Module Aggregate.

(** [Inventory.create] (classmethod). *)
Definition create (pid : pystr) (initial_quantity minimum_stock_level : Z)
  : result (Inventory * list event) :=
  if py_not_str pid || py_not_str (strip pid) then Err InvalidQuantityError
  else if initial_quantity <? 0 then Err InvalidQuantityError
  else if minimum_stock_level <? 0 then Err InvalidQuantityError
  else
    match new_Inventory (strip pid) initial_quantity 0 minimum_stock_level with
    | Err e => Err e
    | Ok inventory =>
        let events := [InventoryCreated (product_id inventory)
                         initial_quantity minimum_stock_level] in
        if available_quantity inventory <? minimum_stock_level_of inventory then
          Ok (inventory, events ++ [LowStockDetected (product_id inventory)
                                     (available_quantity inventory)
                                     (minimum_stock_level_of inventory)])
        else Ok (inventory, events)
    end.

(** [Inventory.reserve]: the aggregate after the call and the outcome. *)
Definition reserve (quantity : Z) (self : Inventory) : Inventory * result (list event) :=
  if quantity <=? 0 then (self, Err InvalidQuantityError)
  else if quantity >? available_quantity self then (self, Err InsufficientStockError)
  else
    let self := {| product_id := product_id self;
                   total_quantity := total_quantity self;
                   reserved_quantity := reserved_quantity self + quantity;
                   minimum_stock_level := minimum_stock_level self |} in
    match _validate_invariants self with
    | Err e => (self, Err e)
    | Ok _ =>
        let events := [InventoryReserved (product_id self) quantity] in
        if available_quantity self <? minimum_stock_level self then
          (self, Ok (events ++ [LowStockDetected (product_id self)
                                  (available_quantity self)
                                  (minimum_stock_level self)]))
        else (self, Ok events)
    end.

(** [Inventory.release]. *)
Definition release (quantity : Z) (self : Inventory) : Inventory * result (list event) :=
  if quantity <=? 0 then (self, Err InvalidQuantityError)
  else if quantity >? reserved_quantity self then (self, Err InvalidQuantityError)
  else
    let self := {| product_id := product_id self;
                   total_quantity := total_quantity self;
                   reserved_quantity := reserved_quantity self - quantity;
                   minimum_stock_level := minimum_stock_level self |} in
    match _validate_invariants self with
    | Err e => (self, Err e)
    | Ok _ => (self, Ok [InventoryReleased (product_id self) quantity])
    end.

(** [Inventory.adjust]; [reason] and [adjusted_by] are not used by the body. *)
Definition adjust (new_total_quantity : Z) (reason adjusted_by : pystr) (self : Inventory)
  : Inventory * result (list event) :=
  if new_total_quantity <? 0 then (self, Err InvalidQuantityError)
  else if new_total_quantity <? reserved_quantity self then (self, Err InvalidQuantityError)
  else
    let old_quantity := total_quantity self in
    let self := {| product_id := product_id self;
                   total_quantity := new_total_quantity;
                   reserved_quantity := reserved_quantity self;
                   minimum_stock_level := minimum_stock_level self |} in
    match _validate_invariants self with
    | Err e => (self, Err e)
    | Ok _ =>
        let events := [InventoryAdjusted (product_id self) old_quantity new_total_quantity] in
        if available_quantity self <? minimum_stock_level self then
          (self, Ok (events ++ [LowStockDetected (product_id self)
                                  (available_quantity self)
                                  (minimum_stock_level self)]))
        else (self, Ok events)
    end.

(** One call of a mutating method on the aggregate. *)
Inductive op :=
| OpReserve (quantity : Z)
| OpRelease (quantity : Z)
| OpAdjust (new_total_quantity : Z) (reason adjusted_by : pystr).

Definition step (o : op) (self : Inventory) : Inventory * result (list event) :=
  match o with
  | OpReserve q => reserve q self
  | OpRelease q => release q self
  | OpAdjust n r a => adjust n r a self
  end.

(** Aggregates observable by a caller: made by [create], then changed by
    successful calls of the mutators. *)
Inductive reachable : Inventory -> Prop :=
| reach_create pid iq msl s evs :
    create pid iq msl = Ok (s, evs) -> reachable s
| reach_step s o s' evs :
    reachable s -> step o s = (s', Ok evs) -> reachable s'.

End Aggregate.

(** ** Stock level monitor (src/application/policies/stock_monitor.py) *)

Module StockLevelMonitor.

(** [StockLevelMonitor.apply]: only [InventoryReserved] and
    [InventoryAdjusted] are triggers. *)
Definition apply (e : event) (inventory : Inventory) : list event :=
  match e with
  | InventoryReserved _ _ | InventoryAdjusted _ _ _ =>
      if available_quantity inventory <? minimum_stock_level inventory then
        [LowStockDetected (product_id inventory)
           (available_quantity inventory) (minimum_stock_level inventory)]
      else []
  | _ => []
  end.

End StockLevelMonitor.

(** ** Repository (src/infrastructure/database/repository.py)

    The [inventory] table is a list of rows keyed by [product_id]; a row
    holds the fields of the aggregate ([InventoryModel.from_domain] /
    [to_domain] copy them one to one).  [query(...).filter_by(product_id=p)
    .first()] is [find_row p]. *)

Module Repository.

Definition table := list Inventory.

Fixpoint find_row (pid : pystr) (db : table) : option Inventory :=
  match db with
  | [] => None
  | r :: t => if pystr_eqb (product_id r) pid then Some r else find_row pid t
  end.

(** The update branch of [save]: the three columns of the row found by
    [first()] are overwritten in place. *)
Fixpoint update_existing (inventory : Inventory) (db : table) : table :=
  match db with
  | [] => []
  | r :: t =>
      if pystr_eqb (product_id r) (product_id inventory) then
        {| product_id := product_id r;
           total_quantity := total_quantity inventory;
           reserved_quantity := reserved_quantity inventory;
           minimum_stock_level := minimum_stock_level inventory |} :: t
      else r :: update_existing inventory t
  end.

(** [InventoryRepository.save]: upsert, then commit. *)
Definition save (inventory : Inventory) (db : table) : table :=
  match find_row (product_id inventory) db with
  | Some _ => update_existing inventory db
  | None => db ++ [inventory]
  end.

(** Modelled from the spec: [InventoryRepository.create], the strict insert
    of section 4.3 ("fails with AlreadyExists if product_id already
    present"), which the repository's tests
    (tests/integration/test_inventory_repository_create.py) call and
    which is missing from src/. *)
Definition create (inventory : Inventory) (db : table) : table * result Inventory :=
  match find_row (product_id inventory) db with
  | Some _ => (db, Err InventoryAlreadyExistsError)
  | None => (db ++ [inventory], Ok inventory)
  end.

(** [InventoryModel.to_domain]: the dataclass constructor on the row's
    columns, so [__post_init__] re-checks the invariants. *)
Definition to_domain (model : Inventory) : result Inventory :=
  new_Inventory (product_id model) (total_quantity model)
    (reserved_quantity model) (minimum_stock_level model).

(** [InventoryRepository.get]. *)
Definition get (pid : pystr) (for_update : bool) (db : table) : result (option Inventory) :=
  match find_row pid db with
  | None => if for_update then Err InventoryNotFoundError else Ok None
  | Some model =>
      match to_domain model with
      | Ok i => Ok (Some i)
      | Err e => Err e
      end
  end.

(** [[model.to_domain() for model in models]], evaluated left to right. *)
Fixpoint to_domain_all (models : table) : result (list Inventory) :=
  match models with
  | [] => Ok []
  | m :: t =>
      match to_domain m with
      | Err e => Err e
      | Ok i =>
          match to_domain_all t with
          | Err e => Err e
          | Ok l => Ok (i :: l)
          end
      end
  end.

(** The SQL filter [(total_quantity - reserved_quantity) < minimum_stock_level]. *)
Definition is_low_stock_row (model : Inventory) : bool :=
  total_quantity model - reserved_quantity model <? minimum_stock_level model.

(** [InventoryRepository.find_low_stock]; the query has no ORDER BY, the
    rows are taken in table order. *)
Definition find_low_stock (db : table) : result (list Inventory) :=
  to_domain_all (filter is_low_stock_row db).

(** [InventoryRepository.delete]: every row with that product_id goes. *)
Definition delete (pid : pystr) (db : table) : table :=
  filter (fun model => negb (pystr_eqb (product_id model) pid)) db.

End Repository.

(** ** Event publisher (src/infrastructure/events/local_publisher.py)

    The routes build [LocalEventPublisher()] without a session, so
    [publish] only appends to [published_events]. *)

Module LocalEventPublisher.

Definition publish (e : event) (published_events : list event) : list event :=
  published_events ++ [e].

(** [publish_many]: [for event in events: self.publish(event)]. *)
Definition publish_many (events : list event) (published_events : list event) : list event :=
  fold_left (fun acc e => publish e acc) events published_events.

Definition clear (published_events : list event) : list event := [].

End LocalEventPublisher.

(** ** Application service (src/application/inventory_service.py)

    The state is the inventory table and the publisher's list.  An
    exception from the aggregate leaves the session uncommitted, so the
    table and the published events stay as they were. *)

Module InventoryService.

Record state := mkState {
  db : Repository.table;
  published_events : list event
}.

(** [InventoryService.get_inventory]. *)
Definition get_inventory (pid : pystr) (st : state) : result Inventory :=
  match Repository.get pid false (db st) with
  | Err e => Err e
  | Ok None => Err InventoryNotFoundError
  | Ok (Some inventory) => Ok inventory
  end.

(** [InventoryService.reserve_inventory]; [order_id] is only logged. *)
Definition reserve_inventory (pid : pystr) (quantity : Z) (order_id : pystr) (st : state)
  : state * result Inventory :=
  match Repository.get pid true (db st) with
  | Err e => (st, Err e)
  | Ok None => (st, Err InventoryNotFoundError)
  | Ok (Some inventory) =>
      match Aggregate.reserve quantity inventory with
      | (_, Err e) => (st, Err e)
      | (inventory, Ok events) =>
          let db' := Repository.save inventory (db st) in
          let pub := fold_left (fun acc e => LocalEventPublisher.publish e acc)
                       events (published_events st) in
          (mkState db' pub, Ok inventory)
      end
  end.

(** [InventoryService.release_inventory]; [order_id] and [reason] are only logged. *)
Definition release_inventory (pid : pystr) (quantity : Z) (order_id reason : pystr)
    (st : state) : state * result Inventory :=
  match Repository.get pid true (db st) with
  | Err e => (st, Err e)
  | Ok None => (st, Err InventoryNotFoundError)
  | Ok (Some inventory) =>
      match Aggregate.release quantity inventory with
      | (_, Err e) => (st, Err e)
      | (inventory, Ok events) =>
          let db' := Repository.save inventory (db st) in
          let pub := fold_left (fun acc e => LocalEventPublisher.publish e acc)
                       events (published_events st) in
          (mkState db' pub, Ok inventory)
      end
  end.

(** [InventoryService.adjust_inventory]. *)
Definition adjust_inventory (pid : pystr) (new_quantity : Z) (reason adjusted_by : pystr)
    (st : state) : state * result Inventory :=
  match Repository.get pid true (db st) with
  | Err e => (st, Err e)
  | Ok None => (st, Err InventoryNotFoundError)
  | Ok (Some inventory) =>
      match Aggregate.adjust new_quantity reason adjusted_by inventory with
      | (_, Err e) => (st, Err e)
      | (inventory, Ok events) =>
          let db' := Repository.save inventory (db st) in
          let pub := fold_left (fun acc e => LocalEventPublisher.publish e acc)
                       events (published_events st) in
          (mkState db' pub, Ok inventory)
      end
  end.

(** [InventoryService.get_low_stock_items]. *)
Definition get_low_stock_items (st : state) : result (list Inventory) :=
  Repository.find_low_stock (db st).

End InventoryService.

(** ** HTTP status of the route handlers (src/infrastructure/api/routes.py)

    The status code each handler answers with, given what the service call
    returned: 200 on success, the [except] clauses in source order, and 500
    for any other exception. *)

Module Routes.




End Routes.

(** ** Small evaluations of the model *)

Definition pid_of (s : string) : pystr := list_ascii_of_string s.

(** Scenario B: create("P2", 5, 20). *)
Example scenario_B :
  Aggregate.create (pid_of "P2") 5 20 =
  Ok (mkInventory (pid_of "P2") 5 0 20,
      [InventoryCreated (pid_of "P2") 5 20; LowStockDetected (pid_of "P2") 5 20]).
Proof. reflexivity. Qed.

(** Scenario C: reserve(5) on total=50, reserved=28, min=20. *)
Example scenario_C :
  Aggregate.reserve 5 (mkInventory (pid_of "P") 50 28 20) =
  (mkInventory (pid_of "P") 50 33 20,
   Ok [InventoryReserved (pid_of "P") 5; LowStockDetected (pid_of "P") 17 20]).
Proof. reflexivity. Qed.

(** Scenario D: reserve(20) on total=100, reserved=90. *)
Example scenario_D :
  Aggregate.reserve 20 (mkInventory (pid_of "P") 100 90 0) =
  (mkInventory (pid_of "P") 100 90 0, Err InsufficientStockError).
Proof. reflexivity. Qed.

(** Surrounding whitespace, tabs and the \x1f separator are stripped. *)
Example strip_example :
  strip (pid_of (String (ascii_of_nat 9) (String (ascii_of_nat 31) " P 1  "))) = pid_of "P 1".
Proof. reflexivity. Qed.

(** ** Lemmas about the invariant check *)

(** Case analysis on every integer comparison of the goal and hypotheses. *)
Ltac zcases :=
  repeat match goal with
  | H : context [?a >? ?b] |- _ => rewrite (Z.gtb_ltb a b) in H
  | |- context [?a >? ?b] => rewrite (Z.gtb_ltb a b)
  | |- context [?a <? ?b] => destruct (Z.ltb_spec a b)
  | |- context [?a <=? ?b] => destruct (Z.leb_spec a b)
  | H : context [?a <? ?b] |- _ => destruct (Z.ltb_spec a b)
  | H : context [?a <=? ?b] |- _ => destruct (Z.leb_spec a b)
  end.

Lemma validate_invariants_valid (s : Inventory) :
  valid s -> _validate_invariants s = Ok tt.
Proof.
  unfold valid, _validate_invariants. intros (H1 & H2 & H3 & H4).
  zcases; try reflexivity; lia.
Qed.

Lemma validate_invariants_ok (s : Inventory) (u : unit) :
  _validate_invariants s = Ok u -> valid s.
Proof.
  unfold valid, _validate_invariants. zcases; try discriminate; intros _; lia.
Qed.

(** A successful mutator call leaves a valid aggregate: the result [Ok] is
    only reached after [_validate_invariants] returned. *)
Lemma step_ok_valid (o : Aggregate.op) (s s' : Inventory) (evs : list event) :
  Aggregate.step o s = (s', Ok evs) -> valid s'.
Proof.
  destruct o as [q | q | n r a]; simpl;
    [unfold Aggregate.reserve | unfold Aggregate.release | unfold Aggregate.adjust];
    repeat (destruct (_ <=? _) || destruct (_ <? _) || destruct (_ >? _));
    try discriminate;
    match goal with
    | |- context [_validate_invariants ?x] =>
        destruct (_validate_invariants x) as [u|e] eqn:Hv
    end; try discriminate;
    try (destruct (_ <? _));
    intros Heq; inversion Heq; subst; eapply validate_invariants_ok; exact Hv.
Qed.

Lemma create_ok_valid (pid : pystr) (iq msl : Z) (s : Inventory) (evs : list event) :
  Aggregate.create pid iq msl = Ok (s, evs) -> valid s.
Proof.
  unfold Aggregate.create, new_Inventory.
  destruct (_ || _); [discriminate|].
  destruct (iq <? 0); [discriminate|].
  destruct (msl <? 0); [discriminate|].
  destruct (_validate_invariants _) as [u|e] eqn:Hv; [|discriminate].
  destruct (_ <? _); intros Heq; inversion Heq; subst;
    eapply validate_invariants_ok; exact Hv.
Qed.

(** ** Claims *)

(** C2: every aggregate obtained from [create] and a finite sequence of
    successful reserve/release/adjust calls, at every point of the
    sequence, satisfies total_quantity >= 0, reserved_quantity >= 0,
    minimum_stock_level >= 0 and reserved_quantity <= total_quantity. *)
Theorem invariant_closure (s : Inventory) :
  Aggregate.reachable s ->
  0 <= total_quantity s /\ 0 <= reserved_quantity s /\
  0 <= minimum_stock_level s /\ reserved_quantity s <= total_quantity s.
Proof.
  intros Hr. destruct Hr as [pid iq msl s evs Hc | s o s' evs _ Hs].
  - exact (create_ok_valid pid iq msl s evs Hc).
  - exact (step_ok_valid o s s' evs Hs).
Qed.

Lemma invariant_closure_witness :
  let s := mkInventory (pid_of "P1") 100 0 10 in
  0 <= total_quantity s /\ 0 <= reserved_quantity s /\
  0 <= minimum_stock_level s /\ reserved_quantity s <= total_quantity s.
Proof.
  apply invariant_closure.
  eapply (Aggregate.reach_create (pid_of " P1 ") 100 10). reflexivity.
Defined.

Lemma reserve_release_reachable_example :
  Aggregate.reachable (mkInventory (pid_of "P1") 100 0 10).
Proof.
  eapply (Aggregate.reach_step _ (Aggregate.OpRelease 30)).
  - eapply (Aggregate.reach_step _ (Aggregate.OpReserve 30)).
    + eapply (Aggregate.reach_create (pid_of "P1") 100 10). reflexivity.
    + reflexivity.
  - reflexivity.
Qed.

(** C3: when reserve, release or adjust raises (InvalidQuantityError or
    InsufficientStockError), the aggregate is exactly as before the call:
    product_id, total_quantity, reserved_quantity and minimum_stock_level
    are all unchanged.  The aggregate is one the program can hold, i.e. it
    satisfies the invariants its constructor checks. *)
Theorem failed_call_leaves_state (o : Aggregate.op) (s s' : Inventory)
    (e : InventoryDomainError) :
  valid s -> Aggregate.step o s = (s', Err e) ->
  s' = s /\ (e = InvalidQuantityError \/ e = InsufficientStockError).
Proof.
  intros Hs. destruct s as [p t r m].
  unfold valid in Hs; simpl in Hs.
  destruct o as [q | q | n ra aa]; simpl;
    [unfold Aggregate.reserve | unfold Aggregate.release | unfold Aggregate.adjust];
    unfold available_quantity; simpl; zcases;
    try (intros Heq; inversion Heq; subst; split; auto; fail);
    rewrite validate_invariants_valid by (unfold valid; simpl; lia);
    try (destruct (_ <? _)); discriminate.
Qed.

Lemma failed_call_leaves_state_witness :
  mkInventory (pid_of "P") 100 90 0 = mkInventory (pid_of "P") 100 90 0 /\
  (InsufficientStockError = InvalidQuantityError \/
   InsufficientStockError = InsufficientStockError).
Proof.
  apply (failed_call_leaves_state (Aggregate.OpReserve 20)).
  - unfold valid; simpl; lia.
  - reflexivity.
Defined.

(** *** Low-stock detection in the mutators *)

Definition has_low_stock (evs : list event) : Prop :=
  exists p a m, In (LowStockDetected p a m) evs.

(** The events contain a low-stock alert exactly when the aggregate [s']
    is below its minimum, and every alert carries [s']'s values. *)
Definition low_stock_exact (s' : Inventory) (evs : list event) : Prop :=
  (has_low_stock evs <-> available_quantity s' < minimum_stock_level s') /\
  (forall p a m, In (LowStockDetected p a m) evs ->
     p = product_id s' /\ a = available_quantity s' /\ m = minimum_stock_level s').

Definition is_low_stock_event (e : event) : bool :=
  match e with LowStockDetected _ _ _ => true | _ => false end.

Lemma low_stock_exact_alert (s' : Inventory) (x : event) :
  is_low_stock_event x = false ->
  available_quantity s' < minimum_stock_level s' ->
  low_stock_exact s'
    [x; LowStockDetected (product_id s') (available_quantity s') (minimum_stock_level s')].
Proof.
  intros Hx Hlt. split.
  - split; [intros _; exact Hlt|].
    intros _. do 3 eexists. right. left. reflexivity.
  - intros p a m [H | [H | []]].
    + subst x. discriminate.
    + injection H as <- <- <-. auto.
Qed.

Lemma low_stock_exact_no_alert (s' : Inventory) (x : event) :
  is_low_stock_event x = false ->
  ~ available_quantity s' < minimum_stock_level s' ->
  low_stock_exact s' [x].
Proof.
  intros Hx Hge. split.
  - split; [|intros H; contradiction].
    intros (p & a & m & [H | []]). subst x. discriminate.
  - intros p a m [H | []]. subst x. discriminate.
Qed.

Lemma no_low_stock_single (x : event) :
  is_low_stock_event x = false -> ~ has_low_stock [x].
Proof.
  intros Hx (p & a & m & [H | []]). subst x. discriminate.
Qed.

(** C1 (as amended): a successful reserve or adjust returns a
    LowStockDetected event if and only if the post-call available_quantity
    is strictly below minimum_stock_level, and the event then carries that
    available_quantity and minimum_stock_level; a successful release never
    returns a LowStockDetected event. *)
Theorem mutator_low_stock_events (o : Aggregate.op) (s s' : Inventory)
    (evs : list event) :
  Aggregate.step o s = (s', Ok evs) ->
  match o with
  | Aggregate.OpRelease _ => ~ has_low_stock evs
  | _ => low_stock_exact s' evs
  end.
Proof.
  destruct o as [q | q | n ra aa]; simpl.
  - unfold Aggregate.reserve.
    destruct (q <=? 0); [discriminate|].
    destruct (q >? available_quantity s); [discriminate|].
    match goal with
    | |- context [_validate_invariants ?x] =>
        destruct (_validate_invariants x) as [u|e]; [|discriminate];
        destruct (Z.ltb_spec (available_quantity x) (minimum_stock_level x))
    end; intros Heq; inversion Heq; subst; clear Heq.
    + match goal with |- low_stock_exact ?x _ =>
        apply (low_stock_exact_alert x); [reflexivity | assumption] end.
    + match goal with |- low_stock_exact ?x _ =>
        apply (low_stock_exact_no_alert x); [reflexivity | lia] end.
  - unfold Aggregate.release.
    destruct (q <=? 0); [discriminate|].
    destruct (q >? reserved_quantity s); [discriminate|].
    destruct (_validate_invariants _); [|discriminate].
    intros Heq; inversion Heq; subst; clear Heq.
    apply no_low_stock_single. reflexivity.
  - unfold Aggregate.adjust.
    destruct (n <? 0); [discriminate|].
    destruct (n <? reserved_quantity s); [discriminate|].
    match goal with
    | |- context [_validate_invariants ?x] =>
        destruct (_validate_invariants x) as [u|e]; [|discriminate];
        destruct (Z.ltb_spec (available_quantity x) (minimum_stock_level x))
    end; intros Heq; inversion Heq; subst; clear Heq.
    + match goal with |- low_stock_exact ?x _ =>
        apply (low_stock_exact_alert x); [reflexivity | assumption] end.
    + match goal with |- low_stock_exact ?x _ =>
        apply (low_stock_exact_no_alert x); [reflexivity | lia] end.
Qed.

Lemma mutator_low_stock_events_witness :
  low_stock_exact (mkInventory (pid_of "P") 50 33 20)
    [InventoryReserved (pid_of "P") 5; LowStockDetected (pid_of "P") 17 20].
Proof.
  apply (mutator_low_stock_events (Aggregate.OpReserve 5) (mkInventory (pid_of "P") 50 28 20)).
  reflexivity.
Defined.

(** C1 fails on release: release(1) on total=10, reserved=5, min=20 leaves
    available_quantity 6 < 20 and returns no LowStockDetected event. *)
Lemma release_low_stock_counterexample :
  Aggregate.release 1 (mkInventory (pid_of "P") 10 5 20) =
    (mkInventory (pid_of "P") 10 4 20, Ok [InventoryReleased (pid_of "P") 1]) /\
  available_quantity (mkInventory (pid_of "P") 10 4 20) <
    minimum_stock_level (mkInventory (pid_of "P") 10 4 20) /\
  ~ has_low_stock [InventoryReleased (pid_of "P") 1].
Proof.
  split; [reflexivity|]. split; [reflexivity|].
  apply no_low_stock_single. reflexivity.
Qed.

(** *** Lemmas about [strip] *)

Lemma forallb_rev_eq {A} (f : A -> bool) (l : list A) :
  forallb f (rev l) = forallb f l.
Proof.
  induction l as [|x l IH]; simpl; [reflexivity|].
  rewrite forallb_app, IH. simpl. rewrite andb_true_r, andb_comm. reflexivity.
Qed.

Lemma lstrip_nil_iff (s : pystr) :
  lstrip s = [] <-> forallb py_isspace s = true.
Proof.
  induction s as [|c t IH]; simpl; [tauto|].
  destruct (py_isspace c); simpl; [exact IH|].
  split; discriminate.
Qed.

Lemma lstrip_head (s : pystr) :
  lstrip s = [] \/ exists c t, lstrip s = c :: t /\ py_isspace c = false.
Proof.
  induction s as [|c t IH]; simpl; [auto|].
  destruct (py_isspace c) eqn:Hc; [exact IH|].
  right. exists c, t. auto.
Qed.

Lemma strip_nil_iff (s : pystr) :
  strip s = [] <-> forallb py_isspace s = true.
Proof.
  unfold strip, rstrip. rewrite <- lstrip_nil_iff.
  split.
  - intros H. apply (f_equal (@rev ascii)) in H. rewrite rev_involutive in H.
    simpl in H. apply lstrip_nil_iff in H. rewrite forallb_rev_eq in H.
    destruct (lstrip_head s) as [H0 | (c & t & Hct & Hc)]; [exact H0|].
    rewrite Hct in H. simpl in H. rewrite Hc in H. discriminate.
  - intros H. rewrite H. reflexivity.
Qed.

Lemma not_str_or_strip (pid : pystr) :
  py_not_str pid || py_not_str (strip pid) = forallb py_isspace pid.
Proof.
  destruct pid as [|c t]; [reflexivity|]. simpl py_not_str at 1. simpl orb.
  destruct (strip (c :: t)) eqn:Hs.
  - symmetry. apply strip_nil_iff. exact Hs.
  - destruct (forallb py_isspace (c :: t)) eqn:Hf; [|reflexivity].
    apply strip_nil_iff in Hf. rewrite Hf in Hs. discriminate.
Qed.

(** [Inventory.create] in closed form. *)
Lemma create_cases (pid : pystr) (iq msl : Z) :
  Aggregate.create pid iq msl =
  if forallb py_isspace pid || (iq <? 0) || (msl <? 0) then Err InvalidQuantityError
  else Ok (mkInventory (strip pid) iq 0 msl,
           InventoryCreated (strip pid) iq msl ::
           (if iq <? msl then [LowStockDetected (strip pid) iq msl] else [])).
Proof.
  unfold Aggregate.create. rewrite not_str_or_strip.
  destruct (forallb py_isspace pid); [reflexivity|]. simpl orb.
  destruct (Z.ltb_spec iq 0); [reflexivity|].
  destruct (Z.ltb_spec msl 0); [reflexivity|].
  unfold new_Inventory.
  rewrite validate_invariants_valid by (unfold valid; simpl; lia).
  unfold available_quantity, minimum_stock_level_of; simpl.
  rewrite Z.sub_0_r. destruct (iq <? msl); reflexivity.
Qed.

(** C4: create(product_id, initial_quantity, minimum_stock_level) fails,
    always with InvalidQuantityError, exactly when product_id is empty or
    whitespace-only, or initial_quantity < 0, or minimum_stock_level < 0;
    on success reserved_quantity = 0, total_quantity = initial_quantity,
    and the events are InventoryCreated followed by a LowStockDetected
    exactly when available_quantity < minimum_stock_level (strict). *)
Theorem create_contract (pid : pystr) (iq msl : Z) :
  ((exists e, Aggregate.create pid iq msl = Err e) <->
     (pid = [] \/ forallb py_isspace pid = true \/ iq < 0 \/ msl < 0)) /\
  (forall e, Aggregate.create pid iq msl = Err e -> e = InvalidQuantityError) /\
  (forall s evs, Aggregate.create pid iq msl = Ok (s, evs) ->
     reserved_quantity s = 0 /\ total_quantity s = iq /\
     evs = InventoryCreated (product_id s) iq msl ::
           (if available_quantity s <? minimum_stock_level s
            then [LowStockDetected (product_id s) (available_quantity s)
                    (minimum_stock_level s)]
            else [])).
Proof.
  rewrite create_cases.
  destruct (forallb py_isspace pid) eqn:Hf; simpl orb.
  - split; [split; [intros _; auto | intros _; eauto]|].
    split; [intros e He; inversion He; reflexivity | discriminate].
  - destruct (Z.ltb_spec iq 0); simpl orb.
    + split; [split; [intros _; auto | intros _; eauto]|].
      split; [intros e He; inversion He; reflexivity | discriminate].
    + destruct (Z.ltb_spec msl 0).
      * split; [split; [intros _; auto | intros _; eauto]|].
        split; [intros e He; inversion He; reflexivity | discriminate].
      * split; [|split].
        -- split; [intros (e & He); discriminate|].
           intros [-> | [Hf' | [H1 | H1]]]; [discriminate | congruence | lia | lia].
        -- intros e He; discriminate.
        -- intros s evs Hc. inversion Hc; subst; clear Hc.
           unfold available_quantity; simpl. rewrite Z.sub_0_r. auto.
Qed.

(** Scenario A and the strict threshold: create("P1", 100, 10) and
    create("P", 20, 20) emit no LowStockDetected. *)
Example scenario_A_and_equal_threshold :
  Aggregate.create (pid_of "P1") 100 10 =
    Ok (mkInventory (pid_of "P1") 100 0 10, [InventoryCreated (pid_of "P1") 100 10]) /\
  Aggregate.create (pid_of "P") 20 20 =
    Ok (mkInventory (pid_of "P") 20 0 20, [InventoryCreated (pid_of "P") 20 20]).
Proof. split; reflexivity. Qed.

(** C5: if reserve(q) succeeds on an aggregate s, release(q) on the result
    succeeds and brings reserved_quantity and available_quantity back to
    their values in s. *)
Theorem reserve_release_roundtrip (s s1 : Inventory) (q : Z) (evs1 : list event) :
  valid s -> Aggregate.reserve q s = (s1, Ok evs1) ->
  exists s2 evs2, Aggregate.release q s1 = (s2, Ok evs2) /\
    reserved_quantity s2 = reserved_quantity s /\
    available_quantity s2 = available_quantity s.
Proof.
  destruct s as [p t r m]. unfold valid; simpl. intros Hs.
  unfold Aggregate.reserve, available_quantity; simpl.
  destruct (Z.leb_spec q 0); [discriminate|].
  rewrite Z.gtb_ltb. destruct (Z.ltb_spec (t - r) q); [discriminate|].
  rewrite validate_invariants_valid by (unfold valid; simpl; lia).
  intros Heq.
  assert (s1 = mkInventory p t (r + q) m) as ->
    by (destruct (_ <? _); inversion Heq; reflexivity).
  unfold Aggregate.release; simpl.
  destruct (Z.leb_spec q 0); [lia|].
  rewrite Z.gtb_ltb. destruct (Z.ltb_spec (r + q) q); [lia|].
  rewrite validate_invariants_valid by (unfold valid; simpl; lia).
  do 2 eexists. split; [reflexivity|]. simpl. split; lia.
Qed.

Lemma reserve_release_roundtrip_witness :
  exists s2 evs2,
    Aggregate.release 5 (mkInventory (pid_of "P") 50 33 20) = (s2, Ok evs2) /\
    reserved_quantity s2 = reserved_quantity (mkInventory (pid_of "P") 50 28 20) /\
    available_quantity s2 = available_quantity (mkInventory (pid_of "P") 50 28 20).
Proof.
  apply (reserve_release_roundtrip (mkInventory (pid_of "P") 50 28 20) _ 5
           [InventoryReserved (pid_of "P") 5; LowStockDetected (pid_of "P") 17 20]).
  - unfold valid; simpl; lia.
  - reflexivity.
Defined.

(** C6: on an aggregate with available_quantity > 0, reserve of exactly
    available_quantity succeeds and leaves available_quantity 0;
    reserve(available_quantity + 1) fails with InsufficientStockError; and
    reserve(q) for q <= 0 fails with InvalidQuantityError.  Failing calls
    leave the aggregate as it was. *)
Theorem reserve_boundary (s : Inventory) :
  valid s -> 0 < available_quantity s ->
  (exists s' evs, Aggregate.reserve (available_quantity s) s = (s', Ok evs) /\
                  available_quantity s' = 0) /\
  Aggregate.reserve (available_quantity s + 1) s = (s, Err InsufficientStockError) /\
  (forall q, q <= 0 -> Aggregate.reserve q s = (s, Err InvalidQuantityError)).
Proof.
  destruct s as [p t r m]. unfold valid, available_quantity; simpl. intros Hs Hpos.
  unfold Aggregate.reserve, available_quantity; simpl.
  split; [|split].
  - destruct (Z.leb_spec (t - r) 0); [lia|].
    rewrite Z.gtb_ltb. destruct (Z.ltb_spec (t - r) (t - r)); [lia|].
    rewrite validate_invariants_valid by (unfold valid; simpl; lia).
    destruct (_ <? _); do 2 eexists; (split; [reflexivity|]); simpl; lia.
  - destruct (Z.leb_spec (t - r + 1) 0); [lia|].
    rewrite Z.gtb_ltb. destruct (Z.ltb_spec (t - r) (t - r + 1)); [reflexivity|lia].
  - intros q Hq. destruct (Z.leb_spec q 0); [reflexivity|lia].
Qed.

Lemma reserve_boundary_witness :
  (exists s' evs, Aggregate.reserve 10 (mkInventory (pid_of "P") 100 90 5) = (s', Ok evs) /\
                  available_quantity s' = 0) /\
  Aggregate.reserve 11 (mkInventory (pid_of "P") 100 90 5) =
    (mkInventory (pid_of "P") 100 90 5, Err InsufficientStockError) /\
  (forall q, q <= 0 -> Aggregate.reserve q (mkInventory (pid_of "P") 100 90 5) =
                        (mkInventory (pid_of "P") 100 90 5, Err InvalidQuantityError)).
Proof.
  apply (reserve_boundary (mkInventory (pid_of "P") 100 90 5)).
  - unfold valid; simpl; lia.
  - vm_compute. reflexivity.
Defined.

(** C7: adjust(x, reason, actor) fails with InvalidQuantityError, leaving
    the aggregate unchanged, for every x < reserved_quantity and every
    x < 0; on a valid aggregate adjust(reserved_quantity) succeeds and
    leaves available_quantity 0; on success total_quantity becomes x and
    the first event is InventoryAdjusted with the old and the new total. *)
Theorem adjust_floor (s : Inventory) (reason actor : pystr) :
  (forall x, x < reserved_quantity s \/ x < 0 ->
     Aggregate.adjust x reason actor s = (s, Err InvalidQuantityError)) /\
  (valid s ->
     exists s' evs, Aggregate.adjust (reserved_quantity s) reason actor s = (s', Ok evs) /\
                    available_quantity s' = 0) /\
  (forall x s' evs, Aggregate.adjust x reason actor s = (s', Ok evs) ->
     total_quantity s' = x /\
     exists rest, evs = InventoryAdjusted (product_id s) (total_quantity s) x :: rest).
Proof.
  destruct s as [p t r m]. unfold Aggregate.adjust; simpl.
  split; [|split].
  - intros x Hx. destruct (Z.ltb_spec x 0); [reflexivity|].
    destruct (Z.ltb_spec x r); [reflexivity|lia].
  - unfold valid; simpl. intros Hs.
    destruct (Z.ltb_spec r 0); [lia|].
    destruct (Z.ltb_spec r r); [lia|].
    rewrite validate_invariants_valid by (unfold valid; simpl; lia).
    destruct (_ <? _); do 2 eexists; (split; [reflexivity|]);
      unfold available_quantity; simpl; lia.
  - intros x s' evs.
    destruct (x <? 0); [discriminate|].
    destruct (x <? r); [discriminate|].
    destruct (_validate_invariants _); [|discriminate].
    destruct (_ <? _); intros Heq; inversion Heq; subst; simpl; eauto.
Qed.

Lemma adjust_floor_witness :
  (forall x, x < 50 \/ x < 0 ->
     Aggregate.adjust x [] [] (mkInventory (pid_of "P") 100 50 0) =
       (mkInventory (pid_of "P") 100 50 0, Err InvalidQuantityError)) /\
  (valid (mkInventory (pid_of "P") 100 50 0) ->
     exists s' evs, Aggregate.adjust 50 [] [] (mkInventory (pid_of "P") 100 50 0) = (s', Ok evs) /\
                    available_quantity s' = 0) /\
  (forall x s' evs, Aggregate.adjust x [] [] (mkInventory (pid_of "P") 100 50 0) = (s', Ok evs) ->
     total_quantity s' = x /\
     exists rest, evs = InventoryAdjusted (pid_of "P") 100 x :: rest).
Proof.
  exact (adjust_floor (mkInventory (pid_of "P") 100 50 0) [] []).
Defined.

(** Scenario E: adjust(40) on total=100, reserved=50 raises
    InvalidQuantityError and leaves the aggregate as it was. *)
Example scenario_E :
  Aggregate.adjust 40 [] [] (mkInventory (pid_of "P") 100 50 0) =
    (mkInventory (pid_of "P") 100 50 0, Err InvalidQuantityError).
Proof. reflexivity. Qed.

(** *** The stock level monitor against the inline checks *)

Definition is_monitor_trigger (e : event) : bool :=
  match e with
  | InventoryReserved _ _ | InventoryAdjusted _ _ _ => true
  | _ => false
  end.

(** C8: StockLevelMonitor.apply(event, inventory_after) is
    [LowStockDetected(product_id, available_quantity, minimum_stock_level)]
    exactly when the event is InventoryReserved or InventoryAdjusted and
    available_quantity < minimum_stock_level, and [] otherwise; for a
    successful reserve or adjust, the events after the first one (the
    inline LowStockDetected check) are what the monitor returns on that
    first event and the resulting aggregate. *)
Theorem stock_monitor_matches_inline :
  (forall e inventory,
     StockLevelMonitor.apply e inventory =
     if is_monitor_trigger e &&
        (available_quantity inventory <? minimum_stock_level inventory)
     then [LowStockDetected (product_id inventory) (available_quantity inventory)
             (minimum_stock_level inventory)]
     else []) /\
  (forall q s s' evs, Aggregate.reserve q s = (s', Ok evs) ->
     evs = InventoryReserved (product_id s') q ::
           StockLevelMonitor.apply (InventoryReserved (product_id s') q) s') /\
  (forall n reason actor s s' evs, Aggregate.adjust n reason actor s = (s', Ok evs) ->
     evs = InventoryAdjusted (product_id s') (total_quantity s) n ::
           StockLevelMonitor.apply
             (InventoryAdjusted (product_id s') (total_quantity s) n) s').
Proof.
  split; [|split].
  - intros e inventory. destruct e; reflexivity.
  - intros q s s' evs. unfold Aggregate.reserve.
    destruct (q <=? 0); [discriminate|].
    destruct (q >? available_quantity s); [discriminate|].
    destruct (_validate_invariants _); [|discriminate].
    unfold StockLevelMonitor.apply.
    destruct (_ <? _) eqn:Hlt; intros Heq; inversion Heq; subst; cbv beta iota; rewrite Hlt; reflexivity.
  - intros n reason actor s s' evs. unfold Aggregate.adjust.
    destruct (n <? 0); [discriminate|].
    destruct (n <? reserved_quantity s); [discriminate|].
    destruct (_validate_invariants _); [|discriminate].
    unfold StockLevelMonitor.apply.
    destruct (_ <? _) eqn:Hlt; intros Heq; inversion Heq; subst; cbv beta iota; rewrite Hlt; reflexivity.
Qed.

Lemma stock_monitor_matches_inline_witness :
  [InventoryReserved (pid_of "P") 5; LowStockDetected (pid_of "P") 17 20] =
  InventoryReserved (pid_of "P") 5 ::
    StockLevelMonitor.apply (InventoryReserved (pid_of "P") 5) (mkInventory (pid_of "P") 50 33 20).
Proof.
  apply (proj1 (proj2 stock_monitor_matches_inline) 5 (mkInventory (pid_of "P") 50 28 20)
           (mkInventory (pid_of "P") 50 33 20)
           [InventoryReserved (pid_of "P") 5; LowStockDetected (pid_of "P") 17 20]).
  reflexivity.
Defined.

(** *** The repository *)

Lemma pystr_eqb_true (a b : pystr) : pystr_eqb a b = true <-> a = b.
Proof.
  unfold pystr_eqb. destruct (list_eq_dec ascii_dec a b); split; congruence.
Qed.

Lemma find_row_product_id (p : pystr) (db : Repository.table) (r : Inventory) :
  Repository.find_row p db = Some r -> product_id r = p.
Proof.
  induction db as [|x t IH]; simpl; [discriminate|].
  destruct (pystr_eqb (product_id x) p) eqn:He; [|exact IH].
  intros H; inversion H; subst. apply pystr_eqb_true. exact He.
Qed.

Lemma update_existing_length (inventory : Inventory) (db : Repository.table) :
  List.length (Repository.update_existing inventory db) = List.length db.
Proof.
  induction db as [|x t IH]; simpl; [reflexivity|].
  destruct (pystr_eqb _ _); simpl; congruence.
Qed.

Lemma update_existing_find_same (inventory : Inventory) (db : Repository.table) (row : Inventory) :
  Repository.find_row (product_id inventory) db = Some row ->
  Repository.find_row (product_id inventory) (Repository.update_existing inventory db) =
    Some (mkInventory (product_id inventory) (total_quantity inventory)
            (reserved_quantity inventory) (minimum_stock_level inventory)).
Proof.
  induction db as [|x t IH]; simpl; [discriminate|].
  destruct (pystr_eqb (product_id x) (product_id inventory)) eqn:He.
  - intros _. simpl. rewrite He. apply pystr_eqb_true in He. rewrite He. reflexivity.
  - intros H. simpl. rewrite He. exact (IH H).
Qed.

Lemma update_existing_find_other (inventory : Inventory) (db : Repository.table) (p : pystr) :
  p <> product_id inventory ->
  Repository.find_row p (Repository.update_existing inventory db) = Repository.find_row p db.
Proof.
  intros Hp. induction db as [|x t IH]; simpl; [reflexivity|].
  destruct (pystr_eqb (product_id x) (product_id inventory)) eqn:He; simpl.
  - destruct (pystr_eqb (product_id x) p) eqn:Hx; [|reflexivity].
    apply pystr_eqb_true in He, Hx. congruence.
  - rewrite IH. reflexivity.
Qed.

(** C9: the repository's create(inventory) fails with
    InventoryAlreadyExistsError, leaving the table unchanged, whenever a
    row with the same product_id is present, and inserts the inventory
    otherwise; save(inventory) inserts when the product_id is absent and
    otherwise updates total_quantity, reserved_quantity and
    minimum_stock_level of that row in place, leaving the other rows and the
    number of rows unchanged. *)
Theorem repository_create_vs_save (inventory : Inventory) (db : Repository.table) :
  (forall row, Repository.find_row (product_id inventory) db = Some row ->
     Repository.create inventory db = (db, Err InventoryAlreadyExistsError)) /\
  (Repository.find_row (product_id inventory) db = None ->
     Repository.create inventory db = (db ++ [inventory], Ok inventory) /\
     Repository.save inventory db = db ++ [inventory]) /\
  (forall row, Repository.find_row (product_id inventory) db = Some row ->
     List.length (Repository.save inventory db) = List.length db /\
     Repository.find_row (product_id inventory) (Repository.save inventory db) =
       Some (mkInventory (product_id inventory) (total_quantity inventory)
               (reserved_quantity inventory) (minimum_stock_level inventory)) /\
     (forall p, p <> product_id inventory ->
        Repository.find_row p (Repository.save inventory db) = Repository.find_row p db)).
Proof.
  unfold Repository.create, Repository.save.
  split; [|split].
  - intros row H. rewrite H. reflexivity.
  - intros H. rewrite H. auto.
  - intros row H. rewrite H. split; [|split].
    + apply update_existing_length.
    + exact (update_existing_find_same inventory db row H).
    + intros p Hp. apply update_existing_find_other. exact Hp.
Qed.

Lemma repository_create_vs_save_witness :
  Repository.create (mkInventory (pid_of "R2") 100 0 10) [mkInventory (pid_of "R2") 50 0 5] =
    ([mkInventory (pid_of "R2") 50 0 5], Err InventoryAlreadyExistsError).
Proof.
  apply (proj1 (repository_create_vs_save (mkInventory (pid_of "R2") 100 0 10)
                  [mkInventory (pid_of "R2") 50 0 5]) (mkInventory (pid_of "R2") 50 0 5)).
  reflexivity.
Defined.

(** *** Stripping of the product id in [create] *)

Definition event_product_id (e : event) : pystr :=
  match e with
  | InventoryReserved p _ | InventoryReleased p _ | InventoryAdjusted p _ _
  | LowStockDetected p _ _ | InventoryCreated p _ _ => p
  end.

Lemma lstrip_app_space (w x : pystr) :
  forallb py_isspace w = true -> lstrip (w ++ x) = lstrip x.
Proof.
  induction w as [|c t IH]; simpl; [reflexivity|].
  intros H. apply andb_prop in H as [Hc Ht]. rewrite Hc. exact (IH Ht).
Qed.

Lemma lstrip_app (s w : pystr) :
  lstrip (s ++ w) = match lstrip s with [] => lstrip w | l => l ++ w end.
Proof.
  induction s as [|c t IH]; simpl; [reflexivity|].
  destruct (py_isspace c); [exact IH | reflexivity].
Qed.

Lemma rstrip_app_space (x w : pystr) :
  forallb py_isspace w = true -> rstrip (x ++ w) = rstrip x.
Proof.
  intros Hw. unfold rstrip. rewrite rev_app_distr, lstrip_app_space; [reflexivity|].
  rewrite forallb_rev_eq. exact Hw.
Qed.

Lemma strip_surrounded (w1 s w2 : pystr) :
  forallb py_isspace w1 = true -> forallb py_isspace w2 = true ->
  strip (w1 ++ s ++ w2) = strip s.
Proof.
  intros H1 H2. unfold strip. rewrite lstrip_app_space by exact H1.
  rewrite lstrip_app. destruct (lstrip s) as [|c t].
  - apply lstrip_nil_iff in H2. rewrite H2. reflexivity.
  - exact (rstrip_app_space (c :: t) w2 H2).
Qed.

(** C10 fails as stated: " P" strips to a non-empty id, yet create(" P",
    -1, 0) raises InvalidQuantityError. *)
Lemma create_strip_counterexample :
  strip (pid_of " P") = pid_of "P" /\
  Aggregate.create (pid_of " P") (-1) 0 = Err InvalidQuantityError.
Proof. split; reflexivity. Qed.

(** C10 (as amended): for a product_id whose stripped form is non-empty,
    initial_quantity >= 0 and minimum_stock_level >= 0, create succeeds,
    the aggregate's product_id is product_id.strip(), and every event it
    returns (InventoryCreated, LowStockDetected) carries the stripped id;
    two product_ids that differ only by surrounding whitespace give the same
    result of create. *)
Theorem create_strips_product_id (pid : pystr) (iq msl : Z) :
  (strip pid <> [] -> 0 <= iq -> 0 <= msl ->
   exists s evs, Aggregate.create pid iq msl = Ok (s, evs) /\
     product_id s = strip pid /\
     (forall e, In e evs -> event_product_id e = strip pid)) /\
  (forall w1 w2, forallb py_isspace w1 = true -> forallb py_isspace w2 = true ->
     Aggregate.create (w1 ++ pid ++ w2) iq msl = Aggregate.create pid iq msl).
Proof.
  split.
  - intros Hs Hiq Hmsl. rewrite create_cases.
    destruct (forallb py_isspace pid) eqn:Hf.
    { apply strip_nil_iff in Hf. contradiction. }
    destruct (Z.ltb_spec iq 0); [lia|]. destruct (Z.ltb_spec msl 0); [lia|].
    simpl orb. do 2 eexists. split; [reflexivity|]. split; [reflexivity|].
    intros e He. destruct (iq <? msl); simpl in He;
      repeat destruct He as [<- | He]; try reflexivity; contradiction.
  - intros w1 w2 H1 H2. rewrite !create_cases, strip_surrounded by assumption.
    rewrite !forallb_app, H1, H2, andb_true_r. reflexivity.
Qed.

Lemma create_strips_product_id_witness :
  exists s evs, Aggregate.create (pid_of " P2 ") 5 20 = Ok (s, evs) /\
    product_id s = strip (pid_of " P2 ") /\
    (forall e, In e evs -> event_product_id e = strip (pid_of " P2 ")).
Proof.
  apply (proj1 (create_strips_product_id (pid_of " P2 ") 5 20)).
  - vm_compute. discriminate.
  - lia.
  - lia.
Defined.

Lemma create_contract_witness :
  exists e, Aggregate.create (pid_of "   ") 10 0 = Err e.
Proof.
  apply (proj2 (proj1 (create_contract (pid_of "   ") 10 0))).
  right. left. reflexivity.
Defined.

(** ** Further properties of the aggregate, the repository and the service *)

(** *** Construction and the repository *)

Lemma validate_invariants_err (s : Inventory) (e : InventoryDomainError) :
  _validate_invariants s = Err e -> e = InvalidQuantityError.
Proof.
  unfold _validate_invariants.
  repeat (destruct (_ <? _) || destruct (_ >? _)); congruence.
Qed.

Lemma new_Inventory_ok (p : pystr) (t r m : Z) :
  valid (mkInventory p t r m) -> new_Inventory p t r m = Ok (mkInventory p t r m).
Proof.
  unfold new_Inventory. intros Hv. rewrite validate_invariants_valid by exact Hv. reflexivity.
Qed.

Lemma new_Inventory_err (p : pystr) (t r m : Z) :
  ~ valid (mkInventory p t r m) -> new_Inventory p t r m = Err InvalidQuantityError.
Proof.
  unfold new_Inventory. intros Hn. destruct (_validate_invariants _) as [u|e] eqn:Hv.
  - apply validate_invariants_ok in Hv. contradiction.
  - apply validate_invariants_err in Hv. congruence.
Qed.

(** Building an [Inventory] (the dataclass constructor and its
    [__post_init__]) succeeds, keeping the given fields, exactly when the
    four invariants hold, and raises InvalidQuantityError otherwise. *)
Theorem new_Inventory_contract (p : pystr) (t r m : Z) :
  (valid (mkInventory p t r m) -> new_Inventory p t r m = Ok (mkInventory p t r m)) /\
  (~ valid (mkInventory p t r m) -> new_Inventory p t r m = Err InvalidQuantityError).
Proof. split; [apply new_Inventory_ok | apply new_Inventory_err]. Qed.

Lemma new_Inventory_contract_witness :
  new_Inventory (pid_of "P") 10 3 1 = Ok (mkInventory (pid_of "P") 10 3 1) /\
  new_Inventory (pid_of "P") 3 10 1 = Err InvalidQuantityError.
Proof.
  split.
  - apply (proj1 (new_Inventory_contract (pid_of "P") 10 3 1)). unfold valid; simpl; lia.
  - apply (proj2 (new_Inventory_contract (pid_of "P") 3 10 1)). unfold valid; simpl; lia.
Defined.

Lemma valid_dec (s : Inventory) : {valid s} + {~ valid s}.
Proof.
  unfold valid.
  destruct (Z_le_dec 0 (total_quantity s)); [|right; tauto].
  destruct (Z_le_dec 0 (reserved_quantity s)); [|right; tauto].
  destruct (Z_le_dec 0 (minimum_stock_level s)); [|right; tauto].
  destruct (Z_le_dec (reserved_quantity s) (total_quantity s)); [left; auto | right; tauto].
Defined.

Lemma to_domain_valid (r : Inventory) : valid r -> Repository.to_domain r = Ok r.
Proof.
  destruct r as [p t rq m]. intros Hv. unfold Repository.to_domain; simpl.
  apply new_Inventory_ok. exact Hv.
Qed.

Lemma to_domain_ok (r i : Inventory) : Repository.to_domain r = Ok i -> i = r /\ valid r.
Proof.
  destruct r as [p t rq m]. unfold Repository.to_domain, new_Inventory; simpl.
  destruct (_validate_invariants _) as [u|e] eqn:Hv; [|discriminate].
  intros H; inversion H; subst. split; [reflexivity|].
  exact (validate_invariants_ok _ _ Hv).
Qed.

Lemma to_domain_err (r : Inventory) (e : InventoryDomainError) :
  Repository.to_domain r = Err e -> e = InvalidQuantityError /\ ~ valid r.
Proof.
  intros H. destruct (valid_dec r) as [Hv | Hn].
  - rewrite to_domain_valid in H by exact Hv. discriminate.
  - destruct r as [p t rq m]. unfold Repository.to_domain in H; simpl in H.
    rewrite (new_Inventory_err p t rq m Hn) in H. inversion H. auto.
Qed.

Lemma pystr_eqb_refl (a : pystr) : pystr_eqb a a = true.
Proof. apply pystr_eqb_true. reflexivity. Qed.

Lemma pystr_eqb_false (a b : pystr) : pystr_eqb a b = false <-> a <> b.
Proof.
  rewrite <- pystr_eqb_true. destruct (pystr_eqb a b); split; congruence.
Qed.

Lemma find_row_app_none (p : pystr) (db x : Repository.table) :
  Repository.find_row p db = None ->
  Repository.find_row p (db ++ x) = Repository.find_row p x.
Proof.
  induction db as [|r t IH]; simpl; [reflexivity|].
  destruct (pystr_eqb (product_id r) p); [discriminate | exact IH].
Qed.

Lemma inventory_eta (i : Inventory) :
  mkInventory (product_id i) (total_quantity i) (reserved_quantity i) (minimum_stock_level i) = i.
Proof. destruct i; reflexivity. Qed.

(** [InventoryRepository.get] on a product id: a missing row gives None, or
    InventoryNotFoundError when [for_update] is set; a stored row comes back
    as it is when it satisfies the invariants, and otherwise the
    constructor in [to_domain] raises InvalidQuantityError. *)
Theorem repository_get_cases (pid : pystr) (for_update : bool) (db : Repository.table) :
  (Repository.find_row pid db = None ->
     Repository.get pid for_update db =
       if for_update then Err InventoryNotFoundError else Ok None) /\
  (forall row, Repository.find_row pid db = Some row ->
     (valid row -> Repository.get pid for_update db = Ok (Some row)) /\
     (~ valid row -> Repository.get pid for_update db = Err InvalidQuantityError)).
Proof.
  unfold Repository.get. split.
  - intros H. rewrite H. reflexivity.
  - intros row H. rewrite H. split.
    + intros Hv. rewrite to_domain_valid by exact Hv. reflexivity.
    + intros Hn. destruct (Repository.to_domain row) as [i|e] eqn:Ht.
      * apply to_domain_ok in Ht. tauto.
      * apply to_domain_err in Ht. destruct Ht as [-> _]. reflexivity.
Qed.

Lemma repository_get_cases_witness :
  Repository.get (pid_of "Q") true [mkInventory (pid_of "P") 5 0 0] = Err InventoryNotFoundError /\
  Repository.get (pid_of "P") false [mkInventory (pid_of "P") 5 0 0] =
    Ok (Some (mkInventory (pid_of "P") 5 0 0)).
Proof.
  split.
  - apply (proj1 (repository_get_cases (pid_of "Q") true [mkInventory (pid_of "P") 5 0 0])).
    reflexivity.
  - apply (proj2 (repository_get_cases (pid_of "P") false [mkInventory (pid_of "P") 5 0 0])
             (mkInventory (pid_of "P") 5 0 0)).
    + reflexivity.
    + unfold valid; simpl; lia.
Defined.

(** Saving an aggregate that satisfies the invariants and reading its
    product id back, locked or not, returns that aggregate, whether save
    inserted or updated. *)
Theorem repository_save_get (inventory : Inventory) (for_update : bool) (db : Repository.table) :
  valid inventory ->
  Repository.get (product_id inventory) for_update (Repository.save inventory db) =
    Ok (Some inventory).
Proof.
  intros Hv. unfold Repository.get, Repository.save.
  destruct (Repository.find_row (product_id inventory) db) as [row|] eqn:Hf.
  - rewrite (update_existing_find_same inventory db row Hf), inventory_eta.
    rewrite to_domain_valid by exact Hv. reflexivity.
  - rewrite find_row_app_none by exact Hf. simpl. rewrite pystr_eqb_refl.
    rewrite to_domain_valid by exact Hv. reflexivity.
Qed.

Lemma repository_save_get_witness :
  Repository.get (pid_of "P") false
    (Repository.save (mkInventory (pid_of "P") 7 2 1) [mkInventory (pid_of "P") 5 0 0]) =
  Ok (Some (mkInventory (pid_of "P") 7 2 1)).
Proof.
  apply (repository_save_get (mkInventory (pid_of "P") 7 2 1)). unfold valid; simpl; lia.
Defined.

Lemma update_existing_app_none (inventory : Inventory) (db x : Repository.table) :
  Repository.find_row (product_id inventory) db = None ->
  Repository.update_existing inventory (db ++ x) =
    db ++ Repository.update_existing inventory x.
Proof.
  induction db as [|r t IH]; simpl; [reflexivity|].
  destruct (pystr_eqb (product_id r) (product_id inventory)); [discriminate|].
  intros H. rewrite (IH H). reflexivity.
Qed.

Lemma update_existing_twice (inventory : Inventory) (db : Repository.table) :
  Repository.update_existing inventory (Repository.update_existing inventory db) =
  Repository.update_existing inventory db.
Proof.
  induction db as [|r t IH]; simpl; [reflexivity|].
  destruct (pystr_eqb (product_id r) (product_id inventory)) eqn:He; simpl.
  - rewrite He. reflexivity.
  - rewrite He, IH. reflexivity.
Qed.

(** [save] is idempotent: saving the same aggregate twice leaves the table
    as saving it once. *)
Theorem repository_save_idempotent (inventory : Inventory) (db : Repository.table) :
  Repository.save inventory (Repository.save inventory db) = Repository.save inventory db.
Proof.
  unfold Repository.save at 2.
  destruct (Repository.find_row (product_id inventory) db) as [row|] eqn:Hf.
  - unfold Repository.save. rewrite (update_existing_find_same inventory db row Hf), Hf.
    apply update_existing_twice.
  - unfold Repository.save. rewrite Hf. rewrite find_row_app_none by exact Hf.
    simpl. rewrite pystr_eqb_refl.
    rewrite update_existing_app_none by exact Hf. simpl. rewrite pystr_eqb_refl.
    rewrite inventory_eta. reflexivity.
Qed.

Lemma find_row_delete_same (pid : pystr) (db : Repository.table) :
  Repository.find_row pid (Repository.delete pid db) = None.
Proof.
  unfold Repository.delete.
  induction db as [|r t IH]; simpl; [reflexivity|].
  destruct (pystr_eqb (product_id r) pid) eqn:He; simpl; [exact IH|].
  rewrite He. exact IH.
Qed.

Lemma find_row_delete_other (pid p : pystr) (db : Repository.table) :
  p <> pid ->
  Repository.find_row p (Repository.delete pid db) = Repository.find_row p db.
Proof.
  intros Hp. unfold Repository.delete.
  induction db as [|r t IH]; simpl; [reflexivity|].
  destruct (pystr_eqb (product_id r) pid) eqn:He; simpl.
  - apply pystr_eqb_true in He. rewrite IH.
    destruct (pystr_eqb (product_id r) p) eqn:Hx; [|reflexivity].
    apply pystr_eqb_true in Hx. congruence.
  - destruct (pystr_eqb (product_id r) p); [reflexivity | exact IH].
Qed.

(** After [delete pid], [get pid] finds nothing (None, or
    InventoryNotFoundError when locking), and the rows of every other
    product id are as before. *)
Theorem repository_delete_get (pid : pystr) (for_update : bool) (db : Repository.table) :
  Repository.get pid for_update (Repository.delete pid db) =
    (if for_update then Err InventoryNotFoundError else Ok None) /\
  (forall p, p <> pid ->
     Repository.get p for_update (Repository.delete pid db) = Repository.get p for_update db).
Proof.
  split.
  - unfold Repository.get. rewrite find_row_delete_same. reflexivity.
  - intros p Hp. unfold Repository.get. rewrite find_row_delete_other by exact Hp.
    reflexivity.
Qed.

Lemma repository_delete_get_witness :
  Repository.get (pid_of "A") true
    (Repository.delete (pid_of "A") [mkInventory (pid_of "A") 1 0 0]) =
    Err InventoryNotFoundError /\
  (forall p, p <> pid_of "A" ->
     Repository.get p true (Repository.delete (pid_of "A") [mkInventory (pid_of "A") 1 0 0]) =
     Repository.get p true [mkInventory (pid_of "A") 1 0 0]).
Proof. exact (repository_delete_get (pid_of "A") true [mkInventory (pid_of "A") 1 0 0]). Defined.






(** *** More on the aggregate's mutators *)

(** Whatever the outcome, a mutator never changes product_id or
    minimum_stock_level; reserve and release never change total_quantity,
    and adjust never changes reserved_quantity. *)
Theorem mutator_frame (o : Aggregate.op) (s s' : Inventory) (r : result (list event)) :
  Aggregate.step o s = (s', r) ->
  product_id s' = product_id s /\ minimum_stock_level s' = minimum_stock_level s /\
  match o with
  | Aggregate.OpAdjust _ _ _ => reserved_quantity s' = reserved_quantity s
  | _ => total_quantity s' = total_quantity s
  end.
Proof.
  destruct o as [q | q | n ra aa]; simpl;
    [unfold Aggregate.reserve | unfold Aggregate.release | unfold Aggregate.adjust];
    repeat (destruct (_ <=? _) || destruct (_ <? _) || destruct (_ >? _)
            || destruct (_validate_invariants _));
    intros H; inversion H; subst; simpl; auto.
Qed.

Lemma mutator_frame_witness :
  product_id (mkInventory (pid_of "P") 100 50 0) = product_id (mkInventory (pid_of "P") 100 50 0) /\
  minimum_stock_level (mkInventory (pid_of "P") 100 50 0) =
    minimum_stock_level (mkInventory (pid_of "P") 100 50 0) /\
  reserved_quantity (mkInventory (pid_of "P") 100 50 0) =
    reserved_quantity (mkInventory (pid_of "P") 100 50 0).
Proof.
  exact (mutator_frame (Aggregate.OpAdjust 40 [] []) (mkInventory (pid_of "P") 100 50 0) _
           _ eq_refl).
Defined.




Lemma reserve_ok_state (q : Z) (s s' : Inventory) (evs : list event) :
  Aggregate.reserve q s = (s', Ok evs) ->
  s' = mkInventory (product_id s) (total_quantity s) (reserved_quantity s + q)
         (minimum_stock_level s) /\ 0 < q /\ q <= available_quantity s.
Proof.
  unfold Aggregate.reserve.
  destruct (Z.leb_spec q 0); [discriminate|]. rewrite Z.gtb_ltb.
  destruct (Z.ltb_spec (available_quantity s) q); [discriminate|].
  destruct (_validate_invariants _); [|discriminate].
  destruct (_ <? _); intros E; inversion E; auto.
Qed.

Lemma reserve_ok_intro (q : Z) (s : Inventory) :
  valid s -> 0 < q -> q <= available_quantity s ->
  exists evs, Aggregate.reserve q s =
    (mkInventory (product_id s) (total_quantity s) (reserved_quantity s + q)
       (minimum_stock_level s), Ok evs).
Proof.
  destruct s as [p t r m]. unfold valid, available_quantity; simpl. intros Hs Hq Ha.
  unfold Aggregate.reserve, available_quantity; simpl.
  destruct (Z.leb_spec q 0); [lia|]. rewrite Z.gtb_ltb.
  destruct (Z.ltb_spec (t - r) q); [lia|].
  rewrite validate_invariants_valid by (unfold valid; simpl; lia).
  destruct (_ <? _); eauto.
Qed.

(** On a valid aggregate, reserve(q) then reserve(q') (q, q' > 0) both
    succeed exactly when reserve(q + q') succeeds, and they end in the same
    aggregate. *)
Theorem reserve_twice_is_reserve_sum (s : Inventory) (q q' : Z) :
  valid s -> 0 < q -> 0 < q' ->
  (forall s1 evs1 s2 evs2,
     Aggregate.reserve q s = (s1, Ok evs1) -> Aggregate.reserve q' s1 = (s2, Ok evs2) ->
     exists evs, Aggregate.reserve (q + q') s = (s2, Ok evs)) /\
  (forall s2 evs, Aggregate.reserve (q + q') s = (s2, Ok evs) ->
     exists s1 evs1 evs2,
       Aggregate.reserve q s = (s1, Ok evs1) /\ Aggregate.reserve q' s1 = (s2, Ok evs2)).
Proof.
  intros Hs Hq Hq'. split.
  - intros s1 evs1 s2 evs2 E1 E2.
    apply reserve_ok_state in E1 as (-> & _ & Ha1).
    apply reserve_ok_state in E2 as (-> & _ & Ha2).
    unfold available_quantity in *; simpl in *.
    destruct (reserve_ok_intro (q + q') s Hs ltac:(lia) ltac:(unfold available_quantity; lia))
      as [evs E].
    rewrite E, Z.add_assoc. eauto.
  - intros s2 evs E. apply reserve_ok_state in E as (-> & _ & Ha).
    unfold available_quantity in Ha.
    destruct (reserve_ok_intro q s Hs Hq ltac:(unfold available_quantity; lia)) as [evs1 E1].
    set (s1 := mkInventory (product_id s) (total_quantity s) (reserved_quantity s + q)
                 (minimum_stock_level s)) in E1.
    assert (valid s1) as Hs1 by (unfold valid, s1 in *; simpl; lia).
    destruct (reserve_ok_intro q' s1 Hs1 Hq' ltac:(unfold available_quantity, s1; simpl; lia))
      as [evs2 E2].
    exists s1, evs1, evs2. split; [exact E1|]. rewrite E2. unfold s1; simpl.
    rewrite Z.add_assoc. reflexivity.
Qed.

Lemma reserve_twice_is_reserve_sum_witness :
  exists evs, Aggregate.reserve 30 (mkInventory (pid_of "P") 100 50 0) =
              (mkInventory (pid_of "P") 100 80 0, Ok evs).
Proof.
  apply (proj1 (reserve_twice_is_reserve_sum (mkInventory (pid_of "P") 100 50 0) 10 20
                  ltac:(unfold valid; simpl; lia) ltac:(lia) ltac:(lia))
           (mkInventory (pid_of "P") 100 60 0) [InventoryReserved (pid_of "P") 10]
           (mkInventory (pid_of "P") 100 80 0) [InventoryReserved (pid_of "P") 20]).
  all: reflexivity.
Defined.

Lemma release_ok_state (q : Z) (s s' : Inventory) (evs : list event) :
  Aggregate.release q s = (s', Ok evs) ->
  s' = mkInventory (product_id s) (total_quantity s) (reserved_quantity s - q)
         (minimum_stock_level s) /\
  evs = [InventoryReleased (product_id s) q] /\ 0 < q /\ q <= reserved_quantity s.
Proof.
  unfold Aggregate.release.
  destruct (Z.leb_spec q 0); [discriminate|]. rewrite Z.gtb_ltb.
  destruct (Z.ltb_spec (reserved_quantity s) q); [discriminate|].
  destruct (_validate_invariants _); [|discriminate].
  intros E; inversion E; auto.
Qed.

Lemma release_ok_intro (q : Z) (s : Inventory) :
  valid s -> 0 < q -> q <= reserved_quantity s ->
  Aggregate.release q s =
    (mkInventory (product_id s) (total_quantity s) (reserved_quantity s - q)
       (minimum_stock_level s), Ok [InventoryReleased (product_id s) q]).
Proof.
  destruct s as [p t r m]. unfold valid; simpl. intros Hs Hq Hr.
  unfold Aggregate.release; simpl.
  destruct (Z.leb_spec q 0); [lia|]. rewrite Z.gtb_ltb.
  destruct (Z.ltb_spec r q); [lia|].
  rewrite validate_invariants_valid by (unfold valid; simpl; lia).
  reflexivity.
Qed.

Lemma adjust_ok_state (n : Z) (ra aa : pystr) (s s' : Inventory) (evs : list event) :
  Aggregate.adjust n ra aa s = (s', Ok evs) ->
  s' = mkInventory (product_id s) n (reserved_quantity s) (minimum_stock_level s) /\
  0 <= n /\ reserved_quantity s <= n.
Proof.
  unfold Aggregate.adjust.
  destruct (Z.ltb_spec n 0); [discriminate|].
  destruct (Z.ltb_spec n (reserved_quantity s)); [discriminate|].
  destruct (_validate_invariants _); [|discriminate].
  destruct (_ <? _); intros E; inversion E; auto.
Qed.

Lemma adjust_ok_intro (n : Z) (ra aa : pystr) (s : Inventory) :
  valid s -> 0 <= n -> reserved_quantity s <= n ->
  exists evs, Aggregate.adjust n ra aa s =
    (mkInventory (product_id s) n (reserved_quantity s) (minimum_stock_level s), Ok evs).
Proof.
  destruct s as [p t r m]. unfold valid; simpl. intros Hs Hn Hr.
  unfold Aggregate.adjust; simpl.
  destruct (Z.ltb_spec n 0); [lia|].
  destruct (Z.ltb_spec n r); [lia|].
  rewrite validate_invariants_valid by (unfold valid; simpl; lia).
  destruct (_ <? _); eauto.
Qed.

Lemma reserve_then_release_exact (q : Z) (s s1 : Inventory) (evs1 : list event) :
  valid s -> Aggregate.reserve q s = (s1, Ok evs1) ->
  Aggregate.release q s1 = (s, Ok [InventoryReleased (product_id s) q]).
Proof.
  intros Hs E. apply reserve_ok_state in E as (-> & Hq & Ha).
  unfold valid, available_quantity in *.
  rewrite release_ok_intro by (unfold valid; simpl; lia). simpl.
  rewrite Z.add_simpl_r, inventory_eta. reflexivity.
Qed.

(** Undoing an adjustment: after a successful adjust(n) on a valid
    aggregate, adjust back to the old total succeeds and restores the
    aggregate exactly. *)
Theorem adjust_back_restores (s s1 : Inventory) (n : Z) (ra aa ra' aa' : pystr)
    (evs : list event) :
  valid s -> Aggregate.adjust n ra aa s = (s1, Ok evs) ->
  exists evs', Aggregate.adjust (total_quantity s) ra' aa' s1 = (s, Ok evs').
Proof.
  intros Hs E. apply adjust_ok_state in E as (-> & Hn & Hr).
  unfold valid in Hs.
  destruct (adjust_ok_intro (total_quantity s) ra' aa'
              (mkInventory (product_id s) n (reserved_quantity s) (minimum_stock_level s)))
    as [evs' E'].
  - unfold valid; simpl; lia.
  - lia.
  - simpl; lia.
  - rewrite E'. simpl. rewrite inventory_eta. eauto.
Qed.

Lemma adjust_back_restores_witness :
  exists evs', Aggregate.adjust 100 [] [] (mkInventory (pid_of "P") 60 50 0) =
               (mkInventory (pid_of "P") 100 50 0, Ok evs').
Proof.
  apply (adjust_back_restores (mkInventory (pid_of "P") 100 50 0) _ 60 [] [] [] []
           [InventoryAdjusted (pid_of "P") 100 60]).
  - unfold valid; simpl; lia.
  - reflexivity.
Defined.

(** Releasing everything reserved on a valid aggregate with a positive
    reservation succeeds, returns only InventoryReleased, sets
    reserved_quantity to 0 and makes the whole total available. *)
Theorem release_all_reserved (s : Inventory) :
  valid s -> 0 < reserved_quantity s ->
  exists s', Aggregate.release (reserved_quantity s) s =
               (s', Ok [InventoryReleased (product_id s) (reserved_quantity s)]) /\
             reserved_quantity s' = 0 /\ available_quantity s' = total_quantity s.
Proof.
  intros Hs Hr. rewrite release_ok_intro by (auto; lia).
  eexists. split; [reflexivity|]. unfold available_quantity; simpl. lia.
Qed.

Lemma release_all_reserved_witness :
  exists s', Aggregate.release 40 (mkInventory (pid_of "P") 100 40 0) =
               (s', Ok [InventoryReleased (pid_of "P") 40]) /\
             reserved_quantity s' = 0 /\ available_quantity s' = 100.
Proof.
  apply (release_all_reserved (mkInventory (pid_of "P") 100 40 0)).
  - unfold valid; simpl; lia.
  - simpl; lia.
Defined.

(** A successful release(q) raises available_quantity by exactly q, so an
    aggregate that is below its minimum after a release was already below
    it before. *)
Theorem release_raises_available (q : Z) (s s' : Inventory) (evs : list event) :
  Aggregate.release q s = (s', Ok evs) ->
  available_quantity s' = available_quantity s + q /\
  (available_quantity s' < minimum_stock_level s' ->
   available_quantity s < minimum_stock_level s).
Proof.
  intros E. apply release_ok_state in E as (-> & _ & Hq & _).
  unfold available_quantity; simpl. split; lia.
Qed.

Lemma release_raises_available_witness :
  available_quantity (mkInventory (pid_of "P") 10 4 20) =
    available_quantity (mkInventory (pid_of "P") 10 5 20) + 1 /\
  (available_quantity (mkInventory (pid_of "P") 10 4 20) <
     minimum_stock_level (mkInventory (pid_of "P") 10 4 20) ->
   available_quantity (mkInventory (pid_of "P") 10 5 20) <
     minimum_stock_level (mkInventory (pid_of "P") 10 5 20)).
Proof.
  apply (release_raises_available 1 _ _ [InventoryReleased (pid_of "P") 1]).
  reflexivity.
Defined.

(** *** The application service *)

(** The shape shared by the three locking use cases of [InventoryService]:
    locked fetch, not-found check, aggregate call, save, publish. *)
Definition locked_mutation (mutate : Inventory -> Inventory * result (list event))
    (pid : pystr) (st : InventoryService.state) : InventoryService.state * result Inventory :=
  match Repository.get pid true (InventoryService.db st) with
  | Err e => (st, Err e)
  | Ok None => (st, Err InventoryNotFoundError)
  | Ok (Some inventory) =>
      match mutate inventory with
      | (_, Err e) => (st, Err e)
      | (inventory, Ok events) =>
          (InventoryService.mkState (Repository.save inventory (InventoryService.db st))
             (fold_left (fun acc e => LocalEventPublisher.publish e acc)
                events (InventoryService.published_events st)), Ok inventory)
      end
  end.

Lemma reserve_inventory_locked pid q o st :
  InventoryService.reserve_inventory pid q o st = locked_mutation (Aggregate.reserve q) pid st.
Proof. reflexivity. Qed.

Lemma release_inventory_locked pid q o r st :
  InventoryService.release_inventory pid q o r st = locked_mutation (Aggregate.release q) pid st.
Proof. reflexivity. Qed.

Lemma adjust_inventory_locked pid n r a st :
  InventoryService.adjust_inventory pid n r a st = locked_mutation (Aggregate.adjust n r a) pid st.
Proof. reflexivity. Qed.

Lemma fold_publish (evs published : list event) :
  fold_left (fun acc e => LocalEventPublisher.publish e acc) evs published = published ++ evs.
Proof.
  revert published. induction evs as [|e t IH]; intros published; simpl.
  - rewrite app_nil_r. reflexivity.
  - rewrite IH. unfold LocalEventPublisher.publish. rewrite <- app_assoc. reflexivity.
Qed.

Lemma get_some_row (pid : pystr) (b : bool) (db : Repository.table) (i : Inventory) :
  Repository.get pid b db = Ok (Some i) ->
  Repository.find_row pid db = Some i /\ valid i /\ product_id i = pid.
Proof.
  unfold Repository.get.
  destruct (Repository.find_row pid db) as [row|] eqn:Hf.
  - destruct (Repository.to_domain row) as [i'|e] eqn:Ht; [|discriminate].
    intros H; inversion H; subst. apply to_domain_ok in Ht as [-> Hv].
    split; [reflexivity|]. split; [exact Hv|]. exact (find_row_product_id _ _ _ Hf).
  - destruct b; discriminate.
Qed.

Lemma get_err_kind (pid : pystr) (b : bool) (db : Repository.table) (e : InventoryDomainError) :
  Repository.get pid b db = Err e -> e = InventoryNotFoundError \/ e = InvalidQuantityError.
Proof.
  unfold Repository.get.
  destruct (Repository.find_row pid db) as [row|].
  - destruct (Repository.to_domain row) as [i|e'] eqn:Ht; [discriminate|].
    intros H; inversion H; subst. apply to_domain_err in Ht as [-> _]. auto.
  - destruct b; intros H; inversion H; auto.
Qed.

Lemma locked_mutation_err m pid st st' e :
  locked_mutation m pid st = (st', Err e) ->
  st' = st /\
  (e = InventoryNotFoundError \/ e = InvalidQuantityError \/ exists s s', m s = (s', Err e)).
Proof.
  unfold locked_mutation.
  destruct (Repository.get pid true _) as [[i|]|e'] eqn:Hg.
  - destruct (m i) as [i' [evs|e']] eqn:Hm; [discriminate|].
    intros H; inversion H; subst. split; [reflexivity|]. right; right; eauto.
  - intros H; inversion H; auto.
  - intros H; inversion H; subst. split; [reflexivity|].
    destruct (get_err_kind _ _ _ _ Hg); auto.
Qed.

Lemma locked_mutation_ok m pid st st' i' :
  locked_mutation m pid st = (st', Ok i') ->
  exists row evs,
    Repository.find_row pid (InventoryService.db st) = Some row /\ valid row /\
    product_id row = pid /\ m row = (i', Ok evs) /\
    st' = InventoryService.mkState (Repository.save i' (InventoryService.db st))
            (InventoryService.published_events st ++ evs).
Proof.
  unfold locked_mutation.
  destruct (Repository.get pid true _) as [[i|]|e'] eqn:Hg; try discriminate.
  destruct (m i) as [i'' [evs|e']] eqn:Hm; [|discriminate].
  intros H; inversion H; subst. apply get_some_row in Hg as (Hf & Hv & Hp).
  exists i, evs. rewrite fold_publish. auto.
Qed.

Lemma locked_mutation_missing m pid st :
  Repository.find_row pid (InventoryService.db st) = None ->
  locked_mutation m pid st = (st, Err InventoryNotFoundError).
Proof. intros H. unfold locked_mutation, Repository.get. rewrite H. reflexivity. Qed.

Lemma find_row_save_same (inventory : Inventory) (db : Repository.table) :
  Repository.find_row (product_id inventory) (Repository.save inventory db) = Some inventory.
Proof.
  unfold Repository.save.
  destruct (Repository.find_row (product_id inventory) db) as [row|] eqn:Hf.
  - rewrite (update_existing_find_same inventory db row Hf). apply f_equal, inventory_eta.
  - rewrite find_row_app_none by exact Hf. simpl. rewrite pystr_eqb_refl. reflexivity.
Qed.

Lemma find_row_app_some (p : pystr) (db x : Repository.table) (r : Inventory) :
  Repository.find_row p db = Some r -> Repository.find_row p (db ++ x) = Some r.
Proof.
  induction db as [|y t IH]; simpl; [discriminate|].
  destruct (pystr_eqb (product_id y) p); [auto | exact IH].
Qed.

Lemma find_row_save_other (inventory : Inventory) (db : Repository.table) (p : pystr) :
  p <> product_id inventory ->
  Repository.find_row p (Repository.save inventory db) = Repository.find_row p db.
Proof.
  intros Hp. unfold Repository.save.
  destruct (Repository.find_row (product_id inventory) db) as [row|].
  - apply update_existing_find_other. exact Hp.
  - destruct (Repository.find_row p db) as [r|] eqn:Hf.
    + apply find_row_app_some. exact Hf.
    + rewrite find_row_app_none by exact Hf. simpl.
      destruct (pystr_eqb (product_id inventory) p) eqn:He; [|reflexivity].
      apply pystr_eqb_true in He. congruence.
Qed.

Lemma save_preserves_valid (inventory : Inventory) (db : Repository.table) :
  valid inventory -> Forall valid db -> Forall valid (Repository.save inventory db).
Proof.
  intros Hi Hdb. unfold Repository.save.
  destruct (Repository.find_row _ db).
  - induction Hdb as [|r t Hr Ht IH]; simpl; [constructor|].
    destruct (pystr_eqb _ _); constructor; auto;
      try (unfold valid in *; simpl; tauto).
  - apply Forall_app. split; [exact Hdb | constructor; [exact Hi | constructor]].
Qed.

(** Mutators that keep the product id and leave a valid aggregate on success. *)
Definition good_mutator (m : Inventory -> Inventory * result (list event)) : Prop :=
  forall s s' evs, m s = (s', Ok evs) -> product_id s' = product_id s /\ valid s'.

Lemma reserve_good q : good_mutator (Aggregate.reserve q).
Proof.
  intros s s' evs E. split.
  - apply reserve_ok_state in E as (-> & _). reflexivity.
  - exact (step_ok_valid (Aggregate.OpReserve q) s s' evs E).
Qed.

Lemma release_good q : good_mutator (Aggregate.release q).
Proof.
  intros s s' evs E. split.
  - apply release_ok_state in E as (-> & _). reflexivity.
  - exact (step_ok_valid (Aggregate.OpRelease q) s s' evs E).
Qed.

Lemma adjust_good n r a : good_mutator (Aggregate.adjust n r a).
Proof.
  intros s s' evs E. split.
  - apply adjust_ok_state in E as (-> & _). reflexivity.
  - exact (step_ok_valid (Aggregate.OpAdjust n r a) s s' evs E).
Qed.

Lemma locked_mutation_ok_get m pid st st' i' :
  good_mutator m -> locked_mutation m pid st = (st', Ok i') ->
  product_id i' = pid /\ valid i' /\
  InventoryService.get_inventory pid st' = Ok i'.
Proof.
  intros Hm E. apply locked_mutation_ok in E as (row & evs & Hf & Hv & Hp & Em & ->).
  destruct (Hm _ _ _ Em) as [Hp' Hv']. rewrite Hp in Hp'.
  split; [exact Hp'|]. split; [exact Hv'|].
  unfold InventoryService.get_inventory, Repository.get; simpl.
  rewrite <- Hp', find_row_save_same, to_domain_valid by exact Hv'. reflexivity.
Qed.

(** The service on a product id with no row: get_inventory,
    reserve_inventory, release_inventory and adjust_inventory all raise
    InventoryNotFoundError, and the table and the published events are left
    as they were. *)
Theorem service_missing_product (pid : pystr) (st : InventoryService.state)
    (q n : Z) (order_id reason adjusted_by : pystr) :
  Repository.find_row pid (InventoryService.db st) = None ->
  InventoryService.get_inventory pid st = Err InventoryNotFoundError /\
  InventoryService.reserve_inventory pid q order_id st = (st, Err InventoryNotFoundError) /\
  InventoryService.release_inventory pid q order_id reason st =
    (st, Err InventoryNotFoundError) /\
  InventoryService.adjust_inventory pid n reason adjusted_by st =
    (st, Err InventoryNotFoundError).
Proof.
  intros H.
  rewrite reserve_inventory_locked, release_inventory_locked, adjust_inventory_locked.
  rewrite !locked_mutation_missing by exact H.
  unfold InventoryService.get_inventory, Repository.get. rewrite H. auto.
Qed.

Lemma service_missing_product_witness :
  InventoryService.get_inventory (pid_of "X") (InventoryService.mkState [] []) =
    Err InventoryNotFoundError /\
  InventoryService.reserve_inventory (pid_of "X") 1 [] (InventoryService.mkState [] []) =
    (InventoryService.mkState [] [], Err InventoryNotFoundError) /\
  InventoryService.release_inventory (pid_of "X") 1 [] [] (InventoryService.mkState [] []) =
    (InventoryService.mkState [] [], Err InventoryNotFoundError) /\
  InventoryService.adjust_inventory (pid_of "X") 1 [] [] (InventoryService.mkState [] []) =
    (InventoryService.mkState [] [], Err InventoryNotFoundError).
Proof.
  apply (service_missing_product (pid_of "X") (InventoryService.mkState [] []) 1 1 [] [] []).
  reflexivity.
Defined.



Lemma service_reserve_insufficient_example :
  InventoryService.reserve_inventory (pid_of "P") 20 []
    (InventoryService.mkState [mkInventory (pid_of "P") 100 90 0] []) =
  (InventoryService.mkState [mkInventory (pid_of "P") 100 90 0] [], Err InsufficientStockError).
Proof. reflexivity. Qed.

Lemma locked_mutation_success m pid st st' i' :
  good_mutator m -> locked_mutation m pid st = (st', Ok i') ->
  exists i evs,
    InventoryService.get_inventory pid st = Ok i /\ m i = (i', Ok evs) /\
    InventoryService.published_events st' = InventoryService.published_events st ++ evs /\
    InventoryService.get_inventory pid st' = Ok i'.
Proof.
  intros Hm E.
  destruct (locked_mutation_ok_get m pid st st' i' Hm E) as (_ & _ & Hg').
  apply locked_mutation_ok in E as (row & evs & Hf & Hv & Hp & Em & ->).
  exists row, evs. split; [|split; [exact Em | split; [reflexivity | exact Hg']]].
  unfold InventoryService.get_inventory, Repository.get.
  rewrite Hf, to_domain_valid by exact Hv. reflexivity.
Qed.

(** A successful service use case applies the aggregate method to the
    stored aggregate, appends exactly the events it returned to the
    published events, and persists the result: a later get_inventory
    returns the aggregate the use case returned. *)
Theorem service_success_persists (pid : pystr) (st st' : InventoryService.state)
    (q n : Z) (order_id reason adjusted_by : pystr) (i' : Inventory) :
  (InventoryService.reserve_inventory pid q order_id st = (st', Ok i') ->
     exists i evs, InventoryService.get_inventory pid st = Ok i /\
       Aggregate.reserve q i = (i', Ok evs) /\
       InventoryService.published_events st' = InventoryService.published_events st ++ evs /\
       InventoryService.get_inventory pid st' = Ok i') /\
  (InventoryService.release_inventory pid q order_id reason st = (st', Ok i') ->
     exists i evs, InventoryService.get_inventory pid st = Ok i /\
       Aggregate.release q i = (i', Ok evs) /\
       InventoryService.published_events st' = InventoryService.published_events st ++ evs /\
       InventoryService.get_inventory pid st' = Ok i') /\
  (InventoryService.adjust_inventory pid n reason adjusted_by st = (st', Ok i') ->
     exists i evs, InventoryService.get_inventory pid st = Ok i /\
       Aggregate.adjust n reason adjusted_by i = (i', Ok evs) /\
       InventoryService.published_events st' = InventoryService.published_events st ++ evs /\
       InventoryService.get_inventory pid st' = Ok i').
Proof.
  rewrite reserve_inventory_locked, release_inventory_locked, adjust_inventory_locked.
  split; [|split]; apply locked_mutation_success.
  - apply reserve_good.
  - apply release_good.
  - apply adjust_good.
Qed.

Lemma service_success_persists_witness :
  exists i evs,
    InventoryService.get_inventory (pid_of "P")
      (InventoryService.mkState [mkInventory (pid_of "P") 50 28 20] []) = Ok i /\
    Aggregate.reserve 5 i = (mkInventory (pid_of "P") 50 33 20, Ok evs) /\
    InventoryService.published_events
      (InventoryService.mkState [mkInventory (pid_of "P") 50 33 20]
         [InventoryReserved (pid_of "P") 5; LowStockDetected (pid_of "P") 17 20]) =
      InventoryService.published_events
        (InventoryService.mkState [mkInventory (pid_of "P") 50 28 20] []) ++ evs /\
    InventoryService.get_inventory (pid_of "P")
      (InventoryService.mkState [mkInventory (pid_of "P") 50 33 20]
         [InventoryReserved (pid_of "P") 5; LowStockDetected (pid_of "P") 17 20]) =
      Ok (mkInventory (pid_of "P") 50 33 20).
Proof.
  apply (proj1 (service_success_persists (pid_of "P")
                  (InventoryService.mkState [mkInventory (pid_of "P") 50 28 20] [])
                  (InventoryService.mkState [mkInventory (pid_of "P") 50 33 20]
                     [InventoryReserved (pid_of "P") 5; LowStockDetected (pid_of "P") 17 20])
                  5 0 [] [] [] (mkInventory (pid_of "P") 50 33 20))).
  reflexivity.
Defined.

(** A table whose rows all satisfy the invariants still does after any
    call of reserve_inventory, release_inventory or adjust_inventory,
    successful or not. *)
Theorem service_keeps_table_valid (pid : pystr) (st : InventoryService.state)
    (q n : Z) (order_id reason adjusted_by : pystr) :
  Forall valid (InventoryService.db st) ->
  Forall valid (InventoryService.db (fst (InventoryService.reserve_inventory pid q order_id st))) /\
  Forall valid (InventoryService.db
                  (fst (InventoryService.release_inventory pid q order_id reason st))) /\
  Forall valid (InventoryService.db
                  (fst (InventoryService.adjust_inventory pid n reason adjusted_by st))).
Proof.
  intros Hdb.
  rewrite reserve_inventory_locked, release_inventory_locked, adjust_inventory_locked.
  assert (forall m, good_mutator m ->
            Forall valid (InventoryService.db (fst (locked_mutation m pid st)))) as Hgen.
  { intros m Hm. destruct (locked_mutation m pid st) as [st' [i'|e]] eqn:E; simpl.
    - destruct (locked_mutation_ok_get m pid st st' i' Hm E) as (_ & Hv' & _).
      apply locked_mutation_ok in E as (row & evs & _ & _ & _ & _ & ->). simpl.
      apply save_preserves_valid; assumption.
    - apply locked_mutation_err in E as [-> _]. exact Hdb. }
  split; [|split]; apply Hgen.
  - apply reserve_good.
  - apply release_good.
  - apply adjust_good.
Qed.

Lemma service_keeps_table_valid_witness :
  Forall valid (InventoryService.db (fst (InventoryService.reserve_inventory (pid_of "P") 5 []
    (InventoryService.mkState [mkInventory (pid_of "P") 50 28 20] [])))) /\
  Forall valid (InventoryService.db (fst (InventoryService.release_inventory (pid_of "P") 5 [] []
    (InventoryService.mkState [mkInventory (pid_of "P") 50 28 20] [])))) /\
  Forall valid (InventoryService.db (fst (InventoryService.adjust_inventory (pid_of "P") 5 [] []
    (InventoryService.mkState [mkInventory (pid_of "P") 50 28 20] [])))).
Proof.
  apply service_keeps_table_valid. repeat constructor; simpl; lia.
Defined.

(** A service use case on one product id never changes the row of any
    other product id. *)
Theorem service_other_products_untouched (pid p : pystr) (st : InventoryService.state)
    (q n : Z) (order_id reason adjusted_by : pystr) :
  p <> pid ->
  Repository.find_row p (InventoryService.db (fst (InventoryService.reserve_inventory pid q order_id st))) =
    Repository.find_row p (InventoryService.db st) /\
  Repository.find_row p (InventoryService.db
    (fst (InventoryService.release_inventory pid q order_id reason st))) =
    Repository.find_row p (InventoryService.db st) /\
  Repository.find_row p (InventoryService.db
    (fst (InventoryService.adjust_inventory pid n reason adjusted_by st))) =
    Repository.find_row p (InventoryService.db st).
Proof.
  intros Hp.
  rewrite reserve_inventory_locked, release_inventory_locked, adjust_inventory_locked.
  assert (forall m, good_mutator m ->
            Repository.find_row p (InventoryService.db (fst (locked_mutation m pid st))) =
            Repository.find_row p (InventoryService.db st)) as Hgen.
  { intros m Hm. destruct (locked_mutation m pid st) as [st' [i'|e]] eqn:E; simpl.
    - destruct (locked_mutation_ok_get m pid st st' i' Hm E) as (Hpid & _ & _).
      apply locked_mutation_ok in E as (row & evs & _ & _ & _ & _ & ->). simpl.
      apply find_row_save_other. congruence.
    - apply locked_mutation_err in E as [-> _]. reflexivity. }
  split; [|split]; apply Hgen.
  - apply reserve_good.
  - apply release_good.
  - apply adjust_good.
Qed.

Lemma service_other_products_untouched_witness :
  let st := InventoryService.mkState
              [mkInventory (pid_of "P") 50 28 20; mkInventory (pid_of "Q") 9 1 0] [] in
  Repository.find_row (pid_of "Q")
    (InventoryService.db (fst (InventoryService.reserve_inventory (pid_of "P") 5 [] st))) =
    Repository.find_row (pid_of "Q") (InventoryService.db st) /\
  Repository.find_row (pid_of "Q")
    (InventoryService.db (fst (InventoryService.release_inventory (pid_of "P") 5 [] [] st))) =
    Repository.find_row (pid_of "Q") (InventoryService.db st) /\
  Repository.find_row (pid_of "Q")
    (InventoryService.db (fst (InventoryService.adjust_inventory (pid_of "P") 5 [] [] st))) =
    Repository.find_row (pid_of "Q") (InventoryService.db st).
Proof.
  apply service_other_products_untouched. discriminate.
Defined.

Lemma update_existing_overwrite (a b : Inventory) (db : Repository.table) :
  product_id a = product_id b ->
  Repository.update_existing a (Repository.update_existing b db) =
  Repository.update_existing a db.
Proof.
  intros Hab. induction db as [|r t IH]; simpl; [reflexivity|].
  destruct (pystr_eqb (product_id r) (product_id b)) eqn:He; simpl.
  - rewrite Hab, He. reflexivity.
  - rewrite Hab, He. f_equal. exact IH.
Qed.

Lemma update_existing_self (row : Inventory) (db : Repository.table) :
  Repository.find_row (product_id row) db = Some row ->
  Repository.update_existing row db = db.
Proof.
  induction db as [|r t IH]; simpl; [discriminate|].
  destruct (pystr_eqb (product_id r) (product_id row)) eqn:He; intros H.
  - injection H as ->. f_equal. apply inventory_eta.
  - f_equal. exact (IH H).
Qed.

(** Undoing a reservation through the service: after a successful
    reserve_inventory(pid, q), release_inventory(pid, q) succeeds, returns
    the aggregate read before the reservation, puts the table back exactly
    as it was, and adds one InventoryReleased event to what the
    reservation published. *)
Theorem service_reserve_release_roundtrip (pid : pystr) (q : Z) (order_id reason : pystr)
    (st st1 : InventoryService.state) (i1 : Inventory) :
  InventoryService.reserve_inventory pid q order_id st = (st1, Ok i1) ->
  exists i0 evs,
    InventoryService.get_inventory pid st = Ok i0 /\
    InventoryService.published_events st1 = InventoryService.published_events st ++ evs /\
    InventoryService.release_inventory pid q order_id reason st1 =
      (InventoryService.mkState (InventoryService.db st)
         (InventoryService.published_events st1 ++ [InventoryReleased pid q]), Ok i0).
Proof.
  rewrite reserve_inventory_locked, release_inventory_locked. intros E.
  apply locked_mutation_ok in E as (row & evs & Hf & Hv & Hp & Em & ->).
  destruct (reserve_good q row i1 evs Em) as [Hp1 Hv1].
  exists row, evs. split; [|split; [reflexivity|]].
  - unfold InventoryService.get_inventory, Repository.get.
    rewrite Hf, to_domain_valid by exact Hv. reflexivity.
  - subst pid.
    assert (Repository.find_row (product_id row)
              (Repository.save i1 (InventoryService.db st)) = Some i1) as Hs
      by (rewrite <- Hp1; apply find_row_save_same).
    unfold locked_mutation, Repository.get; simpl.
    rewrite Hs, to_domain_valid by exact Hv1.
    rewrite (reserve_then_release_exact q row i1 evs Hv Em), fold_publish.
    f_equal. f_equal.
    unfold Repository.save at 1. rewrite Hs.
    unfold Repository.save. rewrite Hp1, Hf.
    rewrite update_existing_overwrite by congruence.
    apply update_existing_self. exact Hf.
Qed.

Lemma service_reserve_release_roundtrip_witness :
  exists i0 evs,
    InventoryService.get_inventory (pid_of "P")
      (InventoryService.mkState [mkInventory (pid_of "P") 50 28 20] []) = Ok i0 /\
    InventoryService.published_events
      (InventoryService.mkState [mkInventory (pid_of "P") 50 33 20]
         [InventoryReserved (pid_of "P") 5; LowStockDetected (pid_of "P") 17 20]) =
      InventoryService.published_events
        (InventoryService.mkState [mkInventory (pid_of "P") 50 28 20] []) ++ evs /\
    InventoryService.release_inventory (pid_of "P") 5 [] []
      (InventoryService.mkState [mkInventory (pid_of "P") 50 33 20]
         [InventoryReserved (pid_of "P") 5; LowStockDetected (pid_of "P") 17 20]) =
      (InventoryService.mkState
         (InventoryService.db (InventoryService.mkState [mkInventory (pid_of "P") 50 28 20] []))
         (InventoryService.published_events
            (InventoryService.mkState [mkInventory (pid_of "P") 50 33 20]
               [InventoryReserved (pid_of "P") 5; LowStockDetected (pid_of "P") 17 20])
          ++ [InventoryReleased (pid_of "P") 5]), Ok i0).
Proof.
  apply (service_reserve_release_roundtrip (pid_of "P") 5 [] []
           (InventoryService.mkState [mkInventory (pid_of "P") 50 28 20] [])
           (InventoryService.mkState [mkInventory (pid_of "P") 50 33 20]
              [InventoryReserved (pid_of "P") 5; LowStockDetected (pid_of "P") 17 20])
           (mkInventory (pid_of "P") 50 33 20)).
  reflexivity.
Defined.

(** [publish_many] publishes its events one by one in their order, so the
    publisher's list grows by exactly that sequence; publishing two
    batches in turn is publishing their concatenation, and [clear]
    followed by [publish_many] leaves just the batch. *)
Theorem publisher_publish_many (evs evs' published : list event) :
  LocalEventPublisher.publish_many evs published = published ++ evs /\
  LocalEventPublisher.publish_many evs' (LocalEventPublisher.publish_many evs published) =
    LocalEventPublisher.publish_many (evs ++ evs') published /\
  LocalEventPublisher.publish_many evs (LocalEventPublisher.clear published) = evs.
Proof.
  unfold LocalEventPublisher.publish_many. rewrite !fold_publish.
  split; [reflexivity|split].
  - symmetry. apply app_assoc.
  - reflexivity.
Qed.


